(** * riot: fingerprint comparison and the image index

    A shallow embedding of [image_indexer.py] and of the matcher of [main.py].

    Conventions of the embedding.
    - Python integers are [Z]; lengths, counters and list indices, which the
      code never lets go below zero, are [nat].
    - The confidence of [image_indexer.compare_vectors] is an exact rational,
      in canonical form ([Qc]): the function as it would compute without
      rounding.  Its order, bounds and extreme values are those of the
      binary64 result.  The module [binary64] embeds the same function with
      the binary64 arithmetic of the code (round to nearest even, as
      [SpecFloat] specifies it); the two agree at the canonical size of the
      program (64 x 64, 4096 pixels), where the arithmetic is exact, and
      differ by rounding at other sizes.
    - A Python exception is a value [Raises e] of the type [result]; a
      [try ... except] is a match on it.
    - [print] appends an [output] event to a log; one constructor per
      [print] statement of the source.
    - A [dict] is an association list in insertion order.
    - File names and paths follow POSIX ([posixpath]). *)

From Stdlib Require Import ZArith QArith Qcanon List String Ascii Bool Arith Lia.
From Stdlib Require Import Permutation Sorted.
From Stdlib Require Import Floats.SpecFloat.
Import ListNotations.

Set Implicit Arguments.

Open Scope list_scope.
Open Scope nat_scope.

(** ** Exceptions *)

Inductive exn : Type :=
| IndexError
| ZeroDivisionError
| FileNotFoundError
| JSONDecodeError
| UnicodeDecodeError
| OtherException (msg : string).

Inductive result (A : Type) : Type :=
| Returns (a : A)
| Raises (e : exn).

Arguments Returns {A} a.
Arguments Raises {A} e.

Definition bind {A B : Type} (r : result A) (k : A -> result B) : result B :=
  match r with
  | Returns a => k a
  | Raises e => Raises e
  end.

Notation "x <- r ;; k" := (bind r (fun x => k))
  (at level 61, r at next level, right associativity).

(** ** Printed lines and effects *)

(** One constructor per [print] statement of the two source files; the
    arguments are the values the line is formatted from. *)
Inductive output : Type :=
| ErrorFileNotFound (file_path : string)
| ErrorProcessingImage (file_path : string) (e : exn)
| WarningIndexCorrupted
| ErrorImageDirNotFound
| StartingIndexing
| ClipboardCopied (text : string)
| ErrorCopyingToClipboard (e : exn)
| ComparisonFailed
| ComparingAgainst (entries : nat) (tolerance : Z)
| NearPerfectMatch (name : string) (confidence : Qc)
| TopMatchesHeader
| TopMatch (rank : nat) (name : string) (confidence : Qc)
| FinalConclusionHeader
| StrongConfidence (name : string) (confidence : Qc)
| ConfirmsSameContent
| NoStrongMatch (name : string) (confidence : Qc).

(** A computation that prints and may raise: the lines printed so far and
    the outcome. *)
Definition io (A : Type) : Type := list output * result A.

Definition ret {A : Type} (a : A) : io A := ([], Returns a).

Definition raise {A : Type} (e : exn) : io A := ([], Raises e).

Definition lift {A : Type} (r : result A) : io A := ([], r).

Definition print (o : output) : io unit := ([o], Returns tt).

Definition io_bind {A B : Type} (m : io A) (k : A -> io B) : io B :=
  match m with
  | (log, Returns a) => let (log', r) := k a in (log ++ log', r)
  | (log, Raises e) => (log, Raises e)
  end.

Notation "x <~ m ;; k" := (io_bind m (fun x => k))
  (at level 61, m at next level, right associativity).
Notation "m ;;; k" := (io_bind m (fun _ => k))
  (at level 61, right associativity).

(** ** Python primitives used by the source *)

Module Py.

(** [l[i]] for an index [i >= 0]. *)
Definition getitem {A : Type} (l : list A) (i : nat) : result A :=
  match nth_error l i with
  | Some x => Returns x
  | None => Raises IndexError
  end.

(** [range(start, stop, step)] for [step >= 1]: at most [stop] elements. *)
Fixpoint range_from (fuel start stop step : nat) : list nat :=
  match fuel with
  | O => []
  | S fuel' =>
      if start <? stop
      then start :: range_from fuel' (start + step) stop step
      else []
  end.

Definition range (start stop step : nat) : list nat :=
  range_from stop start stop step.

(** [len(l)]. *)
Definition len {A : Type} (l : list A) : nat := List.length l.

(** [float(z)], the conversion an arithmetic operator applies to an [int]
    operand. *)
Definition float_of_Z (z : Z) : Qc := Q2Qc (inject_Z z).
Definition float_of_nat (n : nat) : Qc := float_of_Z (Z.of_nat n).

(** [x / y] on floats. *)
Definition truediv (x y : Qc) : result Qc :=
  if Qc_eq_dec y 0 then Raises ZeroDivisionError else Returns (x / y)%Qc.

(** *** str, on strings of 8-bit characters *)

(** [lower] folds the letters A-Z. *)
Definition ascii_lower (c : ascii) : ascii :=
  let n := nat_of_ascii c in
  if (65 <=? n) && (n <=? 90) then ascii_of_nat (n + 32) else c.

Fixpoint str_lower (s : string) : string :=
  match s with
  | EmptyString => EmptyString
  | String c s' => String (ascii_lower c) (str_lower s')
  end.

(** [s.endswith(suffix)]. *)
Fixpoint str_endswith (s suffix : string) : bool :=
  if String.eqb s suffix then true
  else match s with
       | EmptyString => false
       | String _ s' => str_endswith s' suffix
       end.

(** [s.endswith((suffix1, suffix2, ...))]. *)
Definition str_endswith_any (s : string) (suffixes : list string) : bool :=
  existsb (str_endswith s) suffixes.

Definition str_startswith (s pre : string) : bool := String.prefix pre s.

(** The highest index of [c] in [s], counted from [i]. *)
Fixpoint rfind_from (s : string) (c : ascii) (i : nat) : option nat :=
  match s with
  | EmptyString => None
  | String x s' =>
      match rfind_from s' c (S i) with
      | Some j => Some j
      | None => if Ascii.eqb x c then Some i else None
      end
  end.

(** [s.rfind(c)]: the highest index of [c], or -1. *)
Definition str_rfind (s : string) (c : ascii) : Z :=
  match rfind_from s c 0 with
  | Some j => Z.of_nat j
  | None => (-1)%Z
  end.

(** [s[:n]] and [s[n:]] for [n >= 0]. *)
Definition slice_to (s : string) (n : nat) : string := substring 0 n s.
Definition slice_from (s : string) (n : nat) : string :=
  substring n (String.length s - n) s.

(** *** os.path (posixpath) *)

(** The [while] loop of [genericpath._splitext]: true as soon as a
    character other than the dot is met before [dotIndex]. *)
Fixpoint splitext_scan (p : string) (filenameIndex fuel : nat) : bool :=
  match fuel with
  | O => false
  | S fuel' =>
      if negb (String.eqb (substring filenameIndex 1 p) ".")
      then true
      else splitext_scan p (S filenameIndex) fuel'
  end.

(** [os.path.splitext(p)]: the extension starts at the last dot of the
    last path component; leading dots of that component do not count. *)
Definition splitext (p : string) : string * string :=
  let sepIndex := str_rfind p "/" in
  let dotIndex := str_rfind p "." in
  if (dotIndex >? sepIndex)%Z
  then
    let filenameIndex := Z.to_nat (sepIndex + 1) in
    if splitext_scan p filenameIndex (Z.to_nat dotIndex - filenameIndex)
    then (slice_to p (Z.to_nat dotIndex), slice_from p (Z.to_nat dotIndex))
    else (p, EmptyString)
  else (p, EmptyString).

(** [os.path.join(a, b)]. *)
Definition path_join (a b : string) : string :=
  if str_startswith b "/" then b
  else if String.eqb a "" || str_endswith a "/" then (a ++ b)%string
  else (a ++ "/" ++ b)%string.

(** *** dict: insertion-ordered, keyed by strings *)

Definition dict (V : Type) : Type := list (string * V).

(** [d.get(k)]. *)
Fixpoint dict_get {V : Type} (d : dict V) (k : string) : option V :=
  match d with
  | [] => None
  | (k', v) :: d' => if String.eqb k' k then Some v else dict_get d' k
  end.

(** [k in d]. *)
Definition dict_contains {V : Type} (d : dict V) (k : string) : bool :=
  match dict_get d k with
  | Some _ => true
  | None => false
  end.

(** [d[k] = v]: an existing key keeps its place, a new key goes last. *)
Fixpoint dict_set {V : Type} (d : dict V) (k : string) (v : V) : dict V :=
  match d with
  | [] => [(k, v)]
  | (k', v') :: d' =>
      if String.eqb k' k then (k, v) :: d' else (k', v') :: dict_set d' k v
  end.

(** [d.items()], in insertion order. *)
Definition dict_items {V : Type} (d : dict V) : list (string * V) := d.

(** *** list.sort *)

Definition float_lt (x y : Qc) : bool :=
  match (x ?= y)%Qc with
  | Lt => true
  | _ => false
  end.

Definition float_ge (x y : Qc) : bool := negb (float_lt x y).
Definition float_gt (x y : Qc) : bool := float_lt y x.

(** [x] goes in front of the first element whose key is not above its
    own. *)
Fixpoint insert_reverse {A : Type} (key : A -> Qc) (x : A) (l : list A)
  : list A :=
  match l with
  | [] => [x]
  | y :: l' =>
      if float_lt (key x) (key y)
      then y :: insert_reverse key x l'
      else x :: y :: l'
  end.

(** [l.sort(key=key, reverse=True)]: the built-in sort is stable, also
    under [reverse=True], which fixes its result; it is computed here by
    insertion from the right. *)
Fixpoint sort_reverse {A : Type} (key : A -> Qc) (l : list A) : list A :=
  match l with
  | [] => []
  | x :: l' => insert_reverse key x (sort_reverse key l')
  end.

End Py.

(** ** image_indexer.py *)

Module image_indexer.

Definition RGB_TOLERANCE : Z := 15.
Definition CANONICAL_SIZE : nat * nat := (64, 64)%nat.

(** The body of the [for] loop of [compare_vectors], over the indices that
    [range(0, total_channels, 3)] yields. *)
Fixpoint compare_loop (vector_a vector_b : list Z) (tolerance : Z)
         (indices : list nat) (mismatched_channels : nat) : result nat :=
  match indices with
  | [] => Returns mismatched_channels
  | i :: rest =>
      ar <- Py.getitem vector_a i ;;
      br <- Py.getitem vector_b i ;;
      let diff_r := Z.abs (ar - br) in
      ag <- Py.getitem vector_a (i + 1) ;;
      bg <- Py.getitem vector_b (i + 1) ;;
      let diff_g := Z.abs (ag - bg) in
      ab <- Py.getitem vector_a (i + 2) ;;
      bb <- Py.getitem vector_b (i + 2) ;;
      let diff_b := Z.abs (ab - bb) in
      let max_diff := Z.max (Z.max diff_r diff_g) diff_b in
      compare_loop vector_a vector_b tolerance rest
        (if (max_diff >? tolerance)%Z
         then S mismatched_channels
         else mismatched_channels)
  end.

Definition compare_vectors (vector_a vector_b : list Z) (tolerance : Z)
  : result Qc :=
  if negb (Py.len vector_a =? Py.len vector_b)
  then Returns 0%Qc
  else
    let total_channels := Py.len vector_a in
    mismatched_channels <-
      compare_loop vector_a vector_b tolerance
        (Py.range 0 total_channels 3) 0 ;;
    total_pixels <- Py.truediv (Py.float_of_nat total_channels) (Py.float_of_Z 3) ;;
    ratio <- Py.truediv (Py.float_of_nat mismatched_channels) total_pixels ;;
    Returns (Py.float_of_Z 100 - ratio * Py.float_of_Z 100)%Qc.

(** *** The world outside the program *)

(** What the program reads from its environment.
    - [resized_pixels path]: the pixels of
      [Image.open(path).convert("RGB").resize(CANONICAL_SIZE, LANCZOS)] as
      [getdata()] lists them, one (R, G, B) triple per pixel, or the
      exception the codec raises.
    - [index_file]: [None] when [os.path.exists(INDEX_FILE)] is false,
      otherwise the outcome of [json.load] on the file.
    - [image_dir]: [None] when [IMAGE_DIR] is not a directory, otherwise
      what [os.listdir(IMAGE_DIR)] enumerates.
    - [clipboard_enabled], [pyperclip_copy]: the optional clipboard. *)
Record environment : Type := {
  resized_pixels : string -> result (list (Z * Z * Z));
  index_file : option (result (Py.dict (list Z)));
  image_dir : option (list string);
  clipboard_enabled : bool;
  pyperclip_copy : string -> result unit
}.

Definition INDEX_FILE : string := "image_index.json".
Definition IMAGE_DIR : string := "images".

(** [list(sum(data, ()))]: the triples laid end to end. *)
Definition flatten_pixels (data : list (Z * Z * Z)) : list Z :=
  flat_map (fun px => let '(r, g, b) := px in [r; g; b]) data.

Definition get_feature_vector (env : environment) (file_path : string)
  : io (option (list Z)) :=
  match resized_pixels env file_path with
  | Returns img_resized =>
      let feature_vector := flatten_pixels img_resized in
      ret (Some feature_vector)
  | Raises FileNotFoundError =>
      print (ErrorFileNotFound file_path) ;;;
      ret None
  | Raises e =>
      print (ErrorProcessingImage file_path e) ;;;
      ret None
  end.

Definition load_index (env : environment) : io (Py.dict (list Z)) :=
  match index_file env with
  | Some outcome =>
      match outcome with
      | Returns data => ret data
      | Raises JSONDecodeError =>
          print WarningIndexCorrupted ;;;
          ret []
      | Raises e => raise e
      end
  | None => ret []
  end.

(** The [for] loop of [index_all_images]; [index_data] is mutated in the
    source and threaded here. *)
Fixpoint index_loop (env : environment) (filenames : list string)
         (index_data : Py.dict (list Z)) (new_count : nat)
  : io (nat * Py.dict (list Z)) :=
  match filenames with
  | [] => ret (new_count, index_data)
  | filename :: rest =>
      if Py.str_endswith_any (Py.str_lower filename)
           [".png"; ".jpg"; ".jpeg"]%string
      then
        let file_path := Py.path_join IMAGE_DIR filename in
        let display_name := fst (Py.splitext filename) in
        vector <~ get_feature_vector env file_path ;;
        match vector with (* [if vector:], false on [None] and on [[]] *)
        | Some (x :: v) =>
            index_loop env rest
              (Py.dict_set index_data display_name (x :: v)) (S new_count)
        | _ => index_loop env rest index_data new_count
        end
      else index_loop env rest index_data new_count
  end.

(** Returns [new_count] and the index as the loop leaves it. *)
Definition index_all_images (env : environment)
           (index_data : Py.dict (list Z)) : io (nat * Py.dict (list Z)) :=
  match image_dir env with
  | None =>
      print ErrorImageDirNotFound ;;;
      ret (0, index_data)
  | Some listing =>
      print StartingIndexing ;;;
      index_loop env listing index_data 0
  end.

End image_indexer.



(** ** main.py *)

Module main.

Import image_indexer.

Definition STRONG_MATCH_THRESHOLD : Qc := Py.float_of_Z 60.

(** An element of [match_results]:
    [{"name": name, "confidence": confidence}]. *)
Record match_result : Type := {
  name : string;
  confidence : Qc
}.

Definition copy_to_clipboard (env : environment) (text : string) : io unit :=
  if clipboard_enabled env
  then
    match pyperclip_copy env text with
    | Returns _ => print (ClipboardCopied text)
    | Raises e => print (ErrorCopyingToClipboard e)
    end
  else ret tt.

(** The scoring loop of [run_comparison_logic] over [index_data.items()];
    [match_results] grows by [append]. *)
Fixpoint score_loop (new_vector : list Z)
         (items : list (string * list Z)) (match_results : list match_result)
  : io (list match_result) :=
  match items with
  | [] => ret match_results
  | (name, indexed_vector) :: rest =>
      confidence <~
        lift (compare_vectors new_vector indexed_vector RGB_TOLERANCE) ;;
      let match_results :=
        match_results ++ [{| name := name; confidence := confidence |}] in
      (if Py.float_gt confidence (Py.float_of_Z 99)
       then print (NearPerfectMatch name confidence)
       else ret tt) ;;;
      score_loop new_vector rest match_results
  end.

(** The loop that prints the top results, over [enumerate(...)]. *)
Fixpoint print_top (i : nat) (results : list match_result) : io unit :=
  match results with
  | [] => ret tt
  | result :: rest =>
      print (TopMatch (i + 1) (name result) (confidence result)) ;;;
      print_top (S i) rest
  end.

(** What a run that gets as far as the ranking has computed: the sorted
    [match_results] and [best_match].  The source prints them and returns
    nothing; they are returned here so that they can be specified. *)
Record comparison : Type := {
  match_results : list match_result;
  best_match : match_result
}.

(** [None] stands for the early [return] on an input that cannot be
    processed. *)
Definition run_comparison_logic (env : environment) (input_path : string)
           (index_data : Py.dict (list Z)) : io (option comparison) :=
  new_vector <~ get_feature_vector env input_path ;;
  match new_vector with (* [if not new_vector:] *)
  | Some (x :: v) =>
      let new_vector := x :: v in
      print (ComparingAgainst (Py.len index_data) RGB_TOLERANCE) ;;;
      match_results <~ score_loop new_vector (Py.dict_items index_data) [] ;;
      let match_results := Py.sort_reverse confidence match_results in
      let best_match :=
        match match_results with
        | first :: _ => first
        | [] => {| name := "None"; confidence := 0%Qc |}
        end in
      print TopMatchesHeader ;;;
      print_top 0 (firstn 5 match_results) ;;;
      print FinalConclusionHeader ;;;
      (if Py.float_ge (confidence best_match) STRONG_MATCH_THRESHOLD
       then
         print (StrongConfidence (name best_match) (confidence best_match)) ;;;
         print ConfirmsSameContent ;;;
         copy_to_clipboard env (name best_match)
       else
         print (NoStrongMatch (name best_match) (confidence best_match))) ;;;
      ret (Some {| match_results := match_results;
                   best_match := best_match |})
  | _ =>
      print ComparisonFailed ;;;
      ret None
  end.

End main.
(** ** The scorer as the specification words it *)

Module Spec.

(** Channel [i] of a fingerprint. *)
Definition channel (v : list Z) (i : nat) : Z := nth i v 0%Z.

(** The largest of the three per-channel absolute differences of pixel [i]. *)
Definition max_channel_difference (A B : list Z) (i : nat) : Z :=
  Z.max (Z.max (Z.abs (channel A (3 * i) - channel B (3 * i)))
               (Z.abs (channel A (3 * i + 1) - channel B (3 * i + 1))))
        (Z.abs (channel A (3 * i + 2) - channel B (3 * i + 2))).

(** A pixel is mismatched if that maximum exceeds the tolerance. *)
Definition pixel_mismatched (A B : list Z) (T : Z) (i : nat) : bool :=
  (T <? max_channel_difference A B i)%Z.

(** Mismatched pixels among the pixels [s .. s+n-1]. *)
Definition mismatched_between (A B : list Z) (T : Z) (s n : nat) : nat :=
  List.length (filter (pixel_mismatched A B T) (seq s n)).

(** [M]: mismatched pixels among the pixels [0 .. N-1]. *)
Definition mismatched_pixel_count (A B : list Z) (T : Z) (N : nat) : nat :=
  mismatched_between A B T 0 N.

(** Confidence = 100 x (1 - M / N). *)
Definition confidence (M N : nat) : Qc :=
  (Py.float_of_Z 100 * (1 - Py.float_of_nat M / Py.float_of_nat N))%Qc.

(** *** Batch indexing *)

(** A file name the scan of the image directory recognises. *)
Definition recognized (filename : string) : bool :=
  Py.str_endswith_any (Py.str_lower filename) [".png"; ".jpg"; ".jpeg"]%string.

(** The catalogue key of a file: its name without the extension. *)
Definition display_name (filename : string) : string :=
  fst (Py.splitext filename).

(** The fingerprint a recognised file of the image directory yields, if
    its image decodes (to at least one pixel). *)
Definition indexed_vector (env : image_indexer.environment)
           (filename : string) : option (list Z) :=
  if recognized filename
  then
    match image_indexer.resized_pixels env
            (Py.path_join image_indexer.IMAGE_DIR filename) with
    | Returns data =>
        match image_indexer.flatten_pixels data with
        | [] => None
        | x :: v => Some (x :: v)
        end
    | Raises _ => None
    end
  else None.

(** A recognised file whose image fails to decode. *)
Definition fails_to_decode (env : image_indexer.environment)
           (filename : string) : bool :=
  recognized filename
  && match image_indexer.resized_pixels env
             (Py.path_join image_indexer.IMAGE_DIR filename) with
     | Returns _ => false
     | Raises _ => true
     end.

Definition is_some {A : Type} (o : option A) : bool :=
  match o with
  | Some _ => true
  | None => false
  end.

(** Files of a listing that get indexed, and files that fail. *)
Definition indexed_count (env : image_indexer.environment)
           (listing : list string) : nat :=
  List.length (filter (fun f => is_some (indexed_vector env f)) listing).

Definition failed_count (env : image_indexer.environment)
           (listing : list string) : nat :=
  List.length (filter (fails_to_decode env) listing).

(** The fingerprint of the last file of the listing that has the key [k]
    and gets indexed. *)
Fixpoint last_indexed (env : image_indexer.environment)
         (listing : list string) (k : string) : option (list Z) :=
  match listing with
  | [] => None
  | f :: rest =>
      match last_indexed env rest k with
      | Some v => Some v
      | None =>
          if String.eqb (display_name f) k
          then indexed_vector env f
          else None
      end
  end.

(** The per-item error lines of a log. *)
Definition is_decode_error (o : output) : bool :=
  match o with
  | ErrorFileNotFound _ | ErrorProcessingImage _ _ => true
  | _ => false
  end.

Definition error_lines (log : list output) : nat :=
  List.length (filter is_decode_error log).

(** *** File names *)





(** *** Matching *)

(** [results] holds, entry by entry and in the order of [items], the name
    of the entry and the confidence the scorer returns for it. *)
Definition scored (new_vector : list Z) (items : list (string * list Z))
           (results : list main.match_result) : Prop :=
  Forall2
    (fun item m =>
       main.name m = fst item
       /\ image_indexer.compare_vectors new_vector (snd item)
            image_indexer.RGB_TOLERANCE
          = Returns (main.confidence m))
    items results.

(** Sorted by descending key: no element comes before one of a higher
    key. *)
Definition sorted_reverse {A : Type} (key : A -> Qc) (l : list A) : Prop :=
  StronglySorted (fun a b => (key b <= key a)%Qc) l.

Definition same_key {A : Type} (key : A -> Qc) (c : Qc) (a : A) : bool :=
  Qc_eq_bool (key a) c.

(** No entry is ranked before one of higher confidence. *)
Definition descending (results : list main.match_result) : Prop :=
  sorted_reverse main.confidence results.

(** The entries of confidence [c], in the order of the list. *)
Definition with_confidence (c : Qc) (results : list main.match_result)
  : list main.match_result :=
  filter (same_key main.confidence c) results.

(** The "no entries" sentinel. *)
Definition no_entries : main.match_result :=
  {| main.name := "None"; main.confidence := 0%Qc |}.

End Spec.


(** ** Sample environments *)

Module Samples.

Import image_indexer.

(** An image directory of three files, the second of which does not
    decode. *)
Definition three_files_env : environment := {|
  resized_pixels := fun file_path =>
    if String.eqb file_path "images/2.png"
    then Raises (OtherException "cannot identify image file")
    else Returns [(10, 20, 30)%Z; (40, 50, 60)%Z];
  index_file := None;
  image_dir := Some ["1.png"; "2.png"; "3.png"]%string;
  clipboard_enabled := false;
  pyperclip_copy := fun _ => Returns tt
|}.

(** An image directory that holds the same picture name twice, as PNG and
    as JPEG. *)
Definition same_stem_env : environment := {|
  resized_pixels := fun file_path =>
    if String.eqb file_path "images/a.png"
    then Returns [(1, 1, 1)%Z]
    else Returns [(2, 2, 2)%Z];
  index_file := Some (Raises JSONDecodeError);
  image_dir := Some ["a.png"; "a.jpg"]%string;
  clipboard_enabled := false;
  pyperclip_copy := fun _ => Returns tt
|}.

(** The image directory of [three_files_env] with other files among the
    images. *)
Definition mixed_files_env : environment := {|
  resized_pixels := resized_pixels three_files_env;
  index_file := None;
  image_dir :=
    Some ["notes.txt"; "1.png"; "2.png"; "png"; "3.png"; "a.gif"]%string;
  clipboard_enabled := false;
  pyperclip_copy := fun _ => Returns tt
|}.

(** A catalogue of four entries; against the query that
    [same_stem_env] decodes, "B" and "C" tie. *)
Definition tie_catalogue : Py.dict (list Z) :=
  [("A"%string, [2; 2; 99]%Z);
   ("B"%string, [2; 2; 2]%Z);
   ("C"%string, [3; 3; 3]%Z);
   ("D"%string, [2; 2]%Z)].

(** An index file whose bytes are not valid text, such as the single byte
    0xFF: [json.load] raises UnicodeDecodeError. *)
Definition undecodable_store_env : environment := {|
  resized_pixels := fun _ => Raises FileNotFoundError;
  index_file := Some (Raises UnicodeDecodeError);
  image_dir := None;
  clipboard_enabled := false;
  pyperclip_copy := fun _ => Returns tt
|}.

(** An image directory with one picture name in three formats, all of
    which decode. *)
Definition three_formats_env : environment := {|
  resized_pixels := fun file_path =>
    if String.eqb file_path "images/a.png" then Returns [(1, 1, 1)%Z]
    else if String.eqb file_path "images/a.jpg" then Returns [(2, 2, 2)%Z]
    else Returns [(3, 3, 3)%Z];
  index_file := None;
  image_dir := Some ["a.png"; "a.jpg"; "a.jpeg"]%string;
  clipboard_enabled := false;
  pyperclip_copy := fun _ => Returns tt
|}.

(** An image directory of two files named by an extension alone. *)
Definition dot_files_env : environment := {|
  resized_pixels := fun file_path =>
    if String.eqb file_path "images/.png" then Returns [(1, 1, 1)%Z]
    else Returns [(2, 2, 2)%Z];
  index_file := None;
  image_dir := Some [".png"; ".jpg"]%string;
  clipboard_enabled := false;
  pyperclip_copy := fun _ => Returns tt
|}.

End Samples.

(** ** The scorer in binary64 *)

(** [compare_vectors] with the floating-point arithmetic of the code: a
    Python [float] is a binary64 number, and division, multiplication and
    subtraction round to nearest even. *)
Module binary64.

Import image_indexer.

Definition prec : Z := 53.
Definition emax : Z := 1024.

(** [float(z)]; exact below 2^53. *)
Definition of_Z (z : Z) : spec_float := binary_normalize prec emax z 0 false.
Definition of_nat (n : nat) : spec_float := of_Z (Z.of_nat n).

Definition is_zero (x : spec_float) : bool :=
  match x with
  | S754_zero _ => true
  | _ => false
  end.

(** [x / y]: Python raises on a zero divisor.  [int / int] is the rounded
    quotient of the integers, which for operands below 2^53, as the length
    of a list is, is the quotient of the two floats. *)
Definition truediv (x y : spec_float) : result spec_float :=
  if is_zero y then Raises ZeroDivisionError
  else Returns (SFdiv prec emax x y).

(** Lines 60 to 63 of image_indexer.py: from the number of mismatched
    pixels and the number of channels to the percentage. *)
Definition match_percentage (mismatched_channels total_channels : nat)
  : result spec_float :=
  total_pixels <- truediv (of_nat total_channels) (of_Z 3) ;;
  ratio <- truediv (of_nat mismatched_channels) total_pixels ;;
  Returns (SFsub prec emax (of_Z 100) (SFmul prec emax ratio (of_Z 100))).

Definition compare_vectors (vector_a vector_b : list Z) (tolerance : Z)
  : result spec_float :=
  if negb (Py.len vector_a =? Py.len vector_b)
  then Returns (S754_zero false)
  else
    let total_channels := Py.len vector_a in
    mismatched_channels <-
      compare_loop vector_a vector_b tolerance
        (Py.range 0 total_channels 3) 0 ;;
    match_percentage mismatched_channels total_channels.

(** The number a binary64 value stands for. *)
Definition value (x : spec_float) : option Q :=
  match x with
  | S754_zero _ => Some 0%Q
  | S754_finite s m e =>
      Some ((if s then - inject_Z (Zpos m) else inject_Z (Zpos m))
            * Qpower 2 e)%Q
  | S754_infinity _ | S754_nan => None
  end.

(** 100 x (1 - M / N) as a rational. *)
Definition exact_confidence (M N : nat) : Q :=
  (100 * (1 - inject_Z (Z.of_nat M) / inject_Z (Z.of_nat N)))%Q.

(** The percentage computed for [M] mismatched pixels out of [N] stands
    for exactly 100 x (1 - M / N). *)
Definition exact_at (N M : nat) : bool :=
  match match_percentage M (3 * N) with
  | Returns c =>
      match value c with
      | Some q => Qeq_bool q (exact_confidence M N)
      | None => false
      end
  | Raises _ => false
  end.

End binary64.

(** ** Further notions for the properties of the report and of the scan *)

Module Report.








End Report.

Module Scan.

(** The error line, if any, that the scan prints for a file. *)
Definition error_line (env : image_indexer.environment) (filename : string)
  : list output :=
  if Spec.recognized filename
  then
    let file_path := Py.path_join image_indexer.IMAGE_DIR filename in
    match image_indexer.resized_pixels env file_path with
    | Returns _ => []
    | Raises FileNotFoundError => [ErrorFileNotFound file_path]
    | Raises e => [ErrorProcessingImage file_path e]
    end
  else [].

(** The keys of a dictionary, in insertion order. *)
Definition keys {V : Type} (d : Py.dict V) : list string := map fst d.

End Scan.

(** ** The index manager of main.py: its actions on the index *)

Module manager.

Import image_indexer.

(** What the console asks for. *)
Inductive prompt : Type :=
| AskLocalPath      (* "Enter the path to the local image file to compare: " *)
| AskAddPath        (* "Enter the path to the single image file to add: " *)
| AskAddName        (* "Enter a display name for this entry ...: " *)
| AskRemoveName.    (* "Enter the display name of the entry to remove: " *)

(** The lines of the index manager, beside those of the functions it
    calls. *)
Inductive line : Type :=
| Printed (o : output)
| Prompted (p : prompt)
| IndexEmptyRunMassUpdate
| FileNotFoundAtPath
| IndexedUpdated (count : nat)
| SuccessfullySaved (entries : nat)
| SuccessfullyAdded (display_name : string)
| IndexEmpty
| SuccessfullyRemoved (name : string)
| EntryNotFound (name : string).

(** The state an action runs in: the environment of the image indexer,
    whose [index_file] is the durable store; which paths exist; and the
    outcomes of the calls of [input()] to come, a line typed or the
    exception raised in its place. *)
Record console : Type := {
  files : environment;
  path_exists : string -> bool;
  stdin : list (result string)
}.

Definition session (A : Type) : Type :=
  console -> list line * result A * console.

Definition sret {A : Type} (a : A) : session A :=
  fun c => ([], Returns a, c).

Definition sbind {A B : Type} (m : session A) (k : A -> session B)
  : session B :=
  fun c =>
    match m c with
    | (log, Returns a, c') =>
        match k a c' with
        | (log', r, c'') => (log ++ log', r, c'')
        end
    | (log, Raises e, c') => (log, Raises e, c')
    end.

Notation "x <~~ m ;;; k" := (sbind m (fun x => k))
  (at level 61, m at next level, right associativity).

Definition say (l : line) : session unit :=
  fun c => ([l], Returns tt, c).

(** A function of the image indexer or the matcher, run on the files of
    the console. *)
Definition run {A : Type} (f : environment -> io A) : session A :=
  fun c => let (log, r) := f (files c) in (map Printed log, r, c).

(** [input(prompt)]: at the end of the input it raises EOFError. *)
Definition input (p : prompt) : session string :=
  fun c =>
    match stdin c with
    | [] => ([Prompted p], Raises (OtherException "EOFError"), c)
    | typed :: rest =>
        ([Prompted p], typed,
         {| files := files c; path_exists := path_exists c; stdin := rest |})
    end.

Definition os_path_exists (path : string) : session bool :=
  fun c => ([], Returns (path_exists c path), c).

(** The environment after [json.dump(index_data, f)] on the index file:
    the file exists and loads as [index_data], strings and lists of
    integers being JSON-safe. *)
Definition write_index (env : environment) (index_data : Py.dict (list Z))
  : environment :=
  {| resized_pixels := resized_pixels env;
     index_file := Some (Returns index_data);
     image_dir := image_dir env;
     clipboard_enabled := clipboard_enabled env;
     pyperclip_copy := pyperclip_copy env |}.

(** [save_index] of image_indexer.py. *)
Definition save_index (index_data : Py.dict (list Z)) : session unit :=
  fun c =>
    ([SuccessfullySaved (Py.len index_data)], Returns tt,
     {| files := write_index (files c) index_data;
        path_exists := path_exists c;
        stdin := stdin c |}).

(** [del d[k]] for a key that is present. *)
Fixpoint dict_del {V : Type} (d : Py.dict V) (k : string) : Py.dict V :=
  match d with
  | [] => []
  | (k', v) :: d' =>
      if String.eqb k' k then d' else (k', v) :: dict_del d' k
  end.

(** [compare_local_file] of main.py. *)
Definition compare_local_file (index_data : Py.dict (list Z))
  : session unit :=
  match index_data with
  | [] => say IndexEmptyRunMassUpdate
  | _ :: _ =>
      input_path <~~ input AskLocalPath ;;;
      found <~~ os_path_exists input_path ;;;
      if negb found
      then say FileNotFoundAtPath
      else
        _ <~~ run (fun env =>
                    main.run_comparison_logic env input_path index_data) ;;;
        sret tt
  end.

(** The branch [choice == '2'] of [manage_index], Mass Update; the index,
    mutated in the source, is returned. *)
Definition mass_update (index_data : Py.dict (list Z))
  : session (Py.dict (list Z)) :=
  counted <~~ run (fun env => index_all_images env index_data) ;;;
  let (count, index_data) := counted : nat * Py.dict (list Z) in
  _ <~~ say (IndexedUpdated count) ;;;
  _ <~~ save_index index_data ;;;
  sret index_data.

(** The branch [choice == '3'], Add Data. *)
Definition add_data (index_data : Py.dict (list Z))
  : session (Py.dict (list Z)) :=
  file_path <~~ input AskAddPath ;;;
  display_name <~~ input AskAddName ;;;
  vector <~~ run (fun env => get_feature_vector env file_path) ;;;
  match vector with (* [if vector:] *)
  | Some (x :: v) =>
      let index_data := Py.dict_set index_data display_name (x :: v) in
      _ <~~ say (SuccessfullyAdded display_name) ;;;
      _ <~~ save_index index_data ;;;
      sret index_data
  | _ => sret index_data
  end.

(** The branch [choice == '4'], Remove Data. *)
Definition remove_data (index_data : Py.dict (list Z))
  : session (Py.dict (list Z)) :=
  match index_data with
  | [] =>
      _ <~~ say IndexEmpty ;;;
      sret index_data
  | _ :: _ =>
      name_to_remove <~~ input AskRemoveName ;;;
      if Py.dict_contains index_data name_to_remove
      then
        let index_data := dict_del index_data name_to_remove in
        _ <~~ say (SuccessfullyRemoved name_to_remove) ;;;
        _ <~~ save_index index_data ;;;
        sret index_data
      else
        _ <~~ say (EntryNotFound name_to_remove) ;;;
        sret index_data
  end.

(** The durable store of a console. *)
Definition store (c : console) : option (result (Py.dict (list Z))) :=
  index_file (files c).

End manager.
Import image_indexer.
Import Samples.

Unset Implicit Arguments.

(** ** Facts on the Python primitives *)

Section PyFacts.

Lemma getitem_in_range (A : Type) (l : list A) (i : nat) (d : A) :
  i < List.length l -> Py.getitem l i = Returns (nth i l d).
Proof.
  intros H. unfold Py.getitem. now rewrite (nth_error_nth' l d H).
Qed.

Lemma getitem_out_of_range (A : Type) (l : list A) (i : nat) :
  List.length l <= i -> Py.getitem l i = Raises IndexError.
Proof.
  intros H. unfold Py.getitem.
  now rewrite (proj2 (nth_error_None l i) H).
Qed.

(** [range(s, s + 3k + r, 3)] with [r < 3] is [s, s+3, ...]: [k] indices,
    and one more when [r] is not zero. *)
Lemma range_from_step3 (k s r fuel : nat) :
  r < 3 -> k + r <= fuel ->
  Py.range_from fuel s (s + 3 * k + r) 3
  = map (fun j => s + 3 * j) (seq 0 (k + (if r =? 0 then 0 else 1))).
Proof.
  revert s fuel. induction k as [|k IH]; intros s fuel Hr Hf.
  - destruct r as [|r]; simpl.
    + destruct fuel; simpl; [reflexivity|].
      replace (s + 0 + 0) with s by lia. now rewrite Nat.ltb_irrefl.
    + destruct fuel as [|fuel]; [lia|]. simpl.
      destruct (Nat.ltb_spec s (s + 0 + S r)); [|lia].
      f_equal; [lia|].
      destruct fuel; simpl; [reflexivity|].
      destruct (Nat.ltb_spec (s + 3) (s + 0 + S r)); [lia|reflexivity].
  - destruct fuel as [|fuel]; [lia|].
    cbn [Py.range_from].
    destruct (Nat.ltb_spec s (s + 3 * S k + r)); [|lia].
    replace (s + 3 * S k + r) with ((s + 3) + 3 * k + r) by lia.
    rewrite IH by lia.
    cbn [Nat.add seq map]. f_equal; [lia|].
    rewrite <- seq_shift, map_map.
    apply map_ext. intros j. lia.
Qed.

Lemma range_step3 (k r : nat) :
  r < 3 ->
  Py.range 0 (3 * k + r) 3
  = map (fun j => 3 * j) (seq 0 (k + (if r =? 0 then 0 else 1))).
Proof.
  intros Hr. unfold Py.range.
  apply (range_from_step3 k 0 r (3 * k + r) Hr). lia.
Qed.

Lemma float_of_nat_Z (n : nat) :
  Py.float_of_nat n = Py.float_of_Z (Z.of_nat n).
Proof. reflexivity. Qed.

Lemma float_of_Z_inj (x y : Z) :
  Py.float_of_Z x = Py.float_of_Z y -> x = y.
Proof.
  unfold Py.float_of_Z. intros H.
  apply Q2Qc_eq_iff in H. apply inject_Z_injective. exact H.
Qed.

Lemma float_of_Z_nonzero (z : Z) : z <> 0%Z -> Py.float_of_Z z <> 0%Qc.
Proof.
  intros Hz H. apply Hz. now apply float_of_Z_inj.
Qed.

Lemma float_of_nat_nonzero (n : nat) : 0 < n -> Py.float_of_nat n <> 0%Qc.
Proof.
  intros Hn. apply float_of_Z_nonzero. lia.
Qed.

Lemma this_float_of_Z (z : Z) : (this (Py.float_of_Z z) == inject_Z z)%Q.
Proof. exact (Qred_correct (inject_Z z)). Qed.

Lemma float_of_nat_le (m n : nat) :
  m <= n -> (Py.float_of_nat m <= Py.float_of_nat n)%Qc.
Proof.
  intros H. unfold Qcle, Py.float_of_nat.
  rewrite !this_float_of_Z, <- Zle_Qle. lia.
Qed.

Lemma float_of_nat_pos (n : nat) : 0 < n -> (0 < Py.float_of_nat n)%Qc.
Proof.
  intros H. unfold Qclt, Py.float_of_nat.
  rewrite this_float_of_Z. change (this 0%Qc) with (inject_Z 0).
  rewrite <- Zlt_Qlt. lia.
Qed.

(** [len / 3] for a length that is a multiple of three. *)
Lemma float_of_nat_div3 (n : nat) :
  (Py.float_of_nat (3 * n) / Py.float_of_Z 3)%Qc = Py.float_of_nat n.
Proof.
  apply Qc_is_canon. unfold Py.float_of_nat.
  change (this (Py.float_of_Z (Z.of_nat (3 * n)) / Py.float_of_Z 3)%Qc)
    with (Qred (this (Py.float_of_Z (Z.of_nat (3 * n)))
                * this (/ Py.float_of_Z 3)%Qc)).
  rewrite Qred_correct.
  change (this (/ Py.float_of_Z 3)%Qc)
    with (Qred (/ this (Py.float_of_Z 3))).
  rewrite Qred_correct, !this_float_of_Z.
  rewrite Nat2Z.inj_mul, inject_Z_mult. simpl (Z.of_nat 3).
  field.
Qed.

Lemma truediv_nonzero (x y : Qc) :
  y <> 0%Qc -> Py.truediv x y = Returns (x / y)%Qc.
Proof.
  intros H. unfold Py.truediv. now destruct (Qc_eq_dec y 0).
Qed.

Lemma truediv_zero (x : Qc) : Py.truediv x 0%Qc = Raises ZeroDivisionError.
Proof.
  unfold Py.truediv. now destruct (Qc_eq_dec 0 0).
Qed.

Lemma Qcinv_nonneg (x : Qc) : (0 <= x -> 0 <= / x)%Qc.
Proof.
  unfold Qcle. intros H.
  change (this (/ x)%Qc) with (Qred (/ this x)).
  rewrite Qred_correct. now apply Qinv_le_0_compat.
Qed.

Lemma Qcmult_nonneg (x y : Qc) : (0 <= x -> 0 <= y -> 0 <= x * y)%Qc.
Proof.
  intros Hx Hy. rewrite <- (Qcmult_0_l y).
  now apply Qcmult_le_compat_r.
Qed.

End PyFacts.

(** ** The scoring loop *)

Section CompareLoop.

Variables (vector_a vector_b : list Z) (tolerance : Z).
Hypothesis same_length : List.length vector_a = List.length vector_b.

(** One iteration on a pixel that lies inside both vectors. *)
Lemma compare_loop_pixel (s : nat) (rest : list nat) (acc : nat) :
  3 * s + 3 <= List.length vector_a ->
  compare_loop vector_a vector_b tolerance (3 * s :: rest) acc
  = compare_loop vector_a vector_b tolerance rest
      (if Spec.pixel_mismatched vector_a vector_b tolerance s
       then S acc else acc).
Proof.
  intros Hs. cbn [compare_loop].
  rewrite (getitem_in_range _ vector_a (3 * s) 0%Z) by lia.
  rewrite (getitem_in_range _ vector_b (3 * s) 0%Z) by lia.
  rewrite (getitem_in_range _ vector_a (3 * s + 1) 0%Z) by lia.
  rewrite (getitem_in_range _ vector_b (3 * s + 1) 0%Z) by lia.
  rewrite (getitem_in_range _ vector_a (3 * s + 2) 0%Z) by lia.
  rewrite (getitem_in_range _ vector_b (3 * s + 2) 0%Z) by lia.
  cbn [bind]. unfold Spec.pixel_mismatched, Spec.max_channel_difference,
    Spec.channel.
  now rewrite Z.gtb_ltb.
Qed.

(** The loop over the pixels [s .. s+k-1], all inside the vectors, adds
    the number of mismatched pixels among them to the counter. *)
Lemma compare_loop_pixels (k s : nat) (rest : list nat) (acc : nat) :
  3 * (s + k) <= List.length vector_a ->
  compare_loop vector_a vector_b tolerance
    (map (fun j => 3 * j) (seq s k) ++ rest) acc
  = compare_loop vector_a vector_b tolerance rest
      (acc + Spec.mismatched_between vector_a vector_b tolerance s k).
Proof.
  revert s acc. induction k as [|k IH]; intros s acc Hk.
  - cbn. now rewrite Nat.add_0_r.
  - cbn [seq map app]. rewrite compare_loop_pixel by lia.
    rewrite IH by lia. f_equal.
    unfold Spec.mismatched_between. cbn [seq filter].
    destruct (Spec.pixel_mismatched vector_a vector_b tolerance s);
      cbn [List.length]; lia.
Qed.

(** An iteration that starts on the last, incomplete pixel raises. *)
Lemma compare_loop_partial_pixel (k r : nat) (rest : list nat) (acc : nat) :
  List.length vector_a = 3 * k + r -> 0 < r < 3 ->
  compare_loop vector_a vector_b tolerance (3 * k :: rest) acc
  = Raises IndexError.
Proof.
  intros Hlen Hr. cbn [compare_loop].
  rewrite (getitem_in_range _ vector_a (3 * k) 0%Z) by lia.
  rewrite (getitem_in_range _ vector_b (3 * k) 0%Z) by lia.
  cbn [bind].
  destruct (Nat.eq_dec r 1) as [->|Hr1].
  - now rewrite (getitem_out_of_range _ vector_a (3 * k + 1)) by lia.
  - rewrite (getitem_in_range _ vector_a (3 * k + 1) 0%Z) by lia.
    rewrite (getitem_in_range _ vector_b (3 * k + 1) 0%Z) by lia.
    cbn [bind].
    now rewrite (getitem_out_of_range _ vector_a (3 * k + 2)) by lia.
Qed.

(** The whole loop on vectors of [N] pixels. *)
Lemma compare_loop_fingerprints (N : nat) :
  List.length vector_a = 3 * N ->
  compare_loop vector_a vector_b tolerance
    (Py.range 0 (Py.len vector_a) 3) 0
  = Returns (Spec.mismatched_pixel_count vector_a vector_b tolerance N).
Proof.
  intros Hlen. unfold Py.len. rewrite Hlen.
  replace (3 * N) with (3 * N + 0) at 1 by lia.
  rewrite range_step3 by lia. cbn [Nat.eqb]. rewrite Nat.add_0_r.
  rewrite <- (app_nil_r (map _ _)).
  rewrite compare_loop_pixels by lia. reflexivity.
Qed.

(** The whole loop on vectors whose length is not a multiple of three. *)
Lemma compare_loop_ragged (k r : nat) :
  List.length vector_a = 3 * k + r -> 0 < r < 3 ->
  compare_loop vector_a vector_b tolerance
    (Py.range 0 (Py.len vector_a) 3) 0
  = Raises IndexError.
Proof.
  intros Hlen Hr. unfold Py.len. rewrite Hlen.
  rewrite range_step3 by lia.
  destruct (Nat.eqb_spec r 0) as [?|_]; [lia|].
  rewrite seq_app, map_app. cbn [seq map Nat.add].
  rewrite compare_loop_pixels by lia.
  now apply (compare_loop_partial_pixel k r).
Qed.

End CompareLoop.

(** ** The similarity scorer *)

Lemma compare_vectors_same_length (a b : list Z) (T : Z) :
  List.length a = List.length b ->
  compare_vectors a b T
  = (mismatched_channels <-
       compare_loop a b T (Py.range 0 (Py.len a) 3) 0 ;;
     total_pixels <-
       Py.truediv (Py.float_of_nat (Py.len a)) (Py.float_of_Z 3) ;;
     ratio <- Py.truediv (Py.float_of_nat mismatched_channels) total_pixels ;;
     Returns (Py.float_of_Z 100 - ratio * Py.float_of_Z 100)%Qc).
Proof.
  intros H. unfold compare_vectors, Py.len.
  now rewrite H, Nat.eqb_refl.
Qed.

(** On two vectors of [N] pixels the scorer divides the number of mismatched
    pixels by [N]; it raises when [N] is zero. *)
Lemma compare_vectors_pixels (a b : list Z) (T : Z) (N : nat) :
  List.length a = 3 * N -> List.length b = 3 * N ->
  compare_vectors a b T
  = (ratio <- Py.truediv
                (Py.float_of_nat (Spec.mismatched_pixel_count a b T N))
                (Py.float_of_nat N) ;;
     Returns (Py.float_of_Z 100 - ratio * Py.float_of_Z 100)%Qc).
Proof.
  intros Ha Hb.
  rewrite compare_vectors_same_length by congruence.
  rewrite (compare_loop_fingerprints a b T ltac:(congruence) N Ha).
  cbn [bind]. unfold Py.len. rewrite Ha.
  rewrite truediv_nonzero by (apply float_of_Z_nonzero; discriminate).
  cbn [bind]. now rewrite float_of_nat_div3.
Qed.

Lemma mismatched_between_le (a b : list Z) (T : Z) (s n : nat) :
  Spec.mismatched_between a b T s n <= n.
Proof.
  unfold Spec.mismatched_between.
  pose proof (filter_length_le (Spec.pixel_mismatched a b T) (seq s n)) as H.
  now rewrite length_seq in H.
Qed.

(** Raising the tolerance cannot turn a matching pixel into a mismatch. *)
Lemma mismatched_between_antitone (a b : list Z) (T1 T2 : Z) (s n : nat) :
  (T1 <= T2)%Z ->
  Spec.mismatched_between a b T2 s n <= Spec.mismatched_between a b T1 s n.
Proof.
  intros HT. unfold Spec.mismatched_between.
  revert s. induction n as [|n IH]; intros s; cbn [seq filter].
  - apply Nat.le_refl.
  - specialize (IH (S s)).
    destruct (Spec.pixel_mismatched a b T2 s) eqn:H2;
      destruct (Spec.pixel_mismatched a b T1 s) eqn:H1;
      cbn [List.length]; try lia.
    unfold Spec.pixel_mismatched in H1, H2.
    apply Z.ltb_lt in H2. apply Z.ltb_ge in H1. lia.
Qed.

Lemma mismatched_between_self (a : list Z) (T : Z) (s n : nat) :
  (0 <= T)%Z -> Spec.mismatched_between a a T s n = 0.
Proof.
  intros HT. unfold Spec.mismatched_between.
  revert s. induction n as [|n IH]; intros s; cbn [seq filter].
  - reflexivity.
  - assert (Hs : Spec.pixel_mismatched a a T s = false).
    { unfold Spec.pixel_mismatched, Spec.max_channel_difference.
      rewrite !Z.sub_diag. apply Z.ltb_ge. exact HT. }
    rewrite Hs. apply IH.
Qed.

(** On two vectors of [N] pixels, [N] not zero, the scorer returns. *)
Lemma compare_vectors_fingerprints (a b : list Z) (T : Z) (N : nat) :
  0 < N -> List.length a = 3 * N -> List.length b = 3 * N ->
  compare_vectors a b T
  = Returns (Py.float_of_Z 100
             - Py.float_of_nat (Spec.mismatched_pixel_count a b T N)
               / Py.float_of_nat N * Py.float_of_Z 100)%Qc.
Proof.
  intros HN Ha Hb.
  rewrite (compare_vectors_pixels a b T N Ha Hb).
  now rewrite truediv_nonzero by (apply float_of_nat_nonzero; exact HN).
Qed.

(** In rational arithmetic: on two fingerprints of [N] pixels each, [N]
    not zero, and for any tolerance, the scorer returns exactly
    100 x (1 - M / N), where [M] counts the pixels whose largest per-channel
    absolute difference exceeds the tolerance. *)
Lemma compare_vectors_confidence_formula
        (A B : list Z) (T : Z) (N : nat) :
  0 < N -> List.length A = 3 * N -> List.length B = 3 * N ->
  compare_vectors A B T
  = Returns (Spec.confidence (Spec.mismatched_pixel_count A B T N) N).
Proof.
  intros HN HA HB.
  rewrite (compare_vectors_fingerprints A B T N HN HA HB).
  f_equal. unfold Spec.confidence.
  field. now apply float_of_nat_nonzero.
Qed.

Lemma compare_vectors_confidence_formula_witness :
  compare_vectors [10; 20; 30; 40; 50; 60]%Z [10; 20; 30; 40; 50; 90]%Z 15
  = Returns (Spec.confidence
               (Spec.mismatched_pixel_count
                  [10; 20; 30; 40; 50; 60]%Z [10; 20; 30; 40; 50; 90]%Z 15 2)
               2).
Proof.
  apply (compare_vectors_confidence_formula
           [10; 20; 30; 40; 50; 60]%Z [10; 20; 30; 40; 50; 90]%Z 15 2);
    [lia | reflexivity | reflexivity].
Defined.

(** *** The scorer in binary64 *)

Lemma this_confidence (M N : nat) :
  0 < N ->
  (this (Py.float_of_Z 100
         - Py.float_of_nat M / Py.float_of_nat N * Py.float_of_Z 100)%Qc
   == binary64.exact_confidence M N)%Q.
Proof.
  intros HN. unfold binary64.exact_confidence, Py.float_of_nat.
  unfold Qcminus, Qcdiv, Qcplus, Qcmult, Qcopp, Qcinv.
  cbn [this Q2Qc].
  rewrite !Qred_correct, !this_float_of_Z.
  field. intros H.
  apply (inject_Z_injective (Z.of_nat N) 0) in H. lia.
Qed.

(** The binary64 scorer runs the same loop: on two vectors of [N] pixels it
    turns the number of mismatched pixels into the percentage. *)
Lemma binary64_compare_vectors_pixels (a b : list Z) (T : Z) (N : nat) :
  List.length a = 3 * N -> List.length b = 3 * N ->
  binary64.compare_vectors a b T
  = binary64.match_percentage (Spec.mismatched_pixel_count a b T N) (3 * N).
Proof.
  intros Ha Hb. unfold binary64.compare_vectors.
  replace (Py.len a =? Py.len b) with true
    by (symmetry; apply Nat.eqb_eq; unfold Py.len; congruence).
  cbn [negb].
  rewrite (compare_loop_fingerprints a b T ltac:(congruence) N Ha).
  cbn [bind]. unfold Py.len. now rewrite Ha.
Qed.

(** At 4096 pixels every count of mismatched pixels gives a percentage that
    binary64 holds exactly. *)
Lemma exact_at_canonical_size :
  forallb (binary64.exact_at 4096) (seq 0 4097) = true.
Proof. vm_compute. reflexivity. Qed.

Lemma binary64_exact_canonical (M : nat) :
  M <= 4096 ->
  exists c q,
    binary64.match_percentage M (3 * 4096) = Returns c
    /\ binary64.value c = Some q
    /\ (q == binary64.exact_confidence M 4096)%Q.
Proof.
  intros HM.
  pose proof exact_at_canonical_size as H.
  rewrite forallb_forall in H.
  specialize (H M ltac:(apply in_seq; lia)).
  unfold binary64.exact_at in H.
  destruct (binary64.match_percentage M (3 * 4096)) as [c|e];
    [|discriminate H].
  destruct (binary64.value c) as [q|] eqn:Hq; [|discriminate H].
  exists c, q. split; [reflexivity|]. split; [exact Hq|].
  now apply Qeq_bool_eq.
Qed.

(** C1, as stated, fails on the binary64 arithmetic of the code: at three
    pixels with one mismatched the scorer returns 66.66666666666667, the
    double 4691249611844267 x 2^-46, which is not 100 x (1 - 1/3). *)
Lemma compare_vectors_binary64_not_exact :
  ~ (forall (A B : list Z) (T : Z) (N : nat),
        0 < N -> List.length A = 3 * N -> List.length B = 3 * N ->
        exists c q,
          binary64.compare_vectors A B T = Returns c
          /\ binary64.value c = Some q
          /\ (q == binary64.exact_confidence
                     (Spec.mismatched_pixel_count A B T N) N)%Q).
Proof.
  intros H.
  destruct (H [0; 0; 0; 0; 0; 0; 0; 0; 0]%Z [0; 0; 99; 0; 0; 0; 0; 0; 0]%Z
              15%Z 3 ltac:(lia) eq_refl eq_refl) as (c & q & Hc & Hq & Heq).
  vm_compute in Hc. injection Hc as <-.
  cbn [binary64.value] in Hq. injection Hq as <-.
  apply Qeq_bool_iff in Heq. vm_compute in Heq. discriminate Heq.
Qed.

(** C1, amended. On two fingerprints of [N] pixels each, [N] not zero,
    and for any tolerance, the result of [compare_vectors] is that of the
    binary64 computation of 100 - (M / (3N / 3)) x 100, where [M] counts the
    pixels whose largest per-channel absolute difference exceeds the
    tolerance and each of the divisions, the multiplication and the
    subtraction rounds to nearest.  At the canonical size of the program,
    64 x 64 pixels, it is a number and that number is exactly
    100 x (1 - M / N). *)
Theorem compare_vectors_binary64_confidence
        (A B : list Z) (T : Z) (N : nat) :
  0 < N -> List.length A = 3 * N -> List.length B = 3 * N ->
  binary64.compare_vectors A B T
  = binary64.match_percentage (Spec.mismatched_pixel_count A B T N) (3 * N)
  /\ (N = fst CANONICAL_SIZE * snd CANONICAL_SIZE ->
      exists c q,
        binary64.compare_vectors A B T = Returns c
        /\ binary64.value c = Some q
        /\ (q == binary64.exact_confidence
                   (Spec.mismatched_pixel_count A B T N) N)%Q).
Proof.
  intros HN HA HB.
  rewrite (binary64_compare_vectors_pixels A B T N HA HB).
  split; [reflexivity|].
  intros ->. change (fst CANONICAL_SIZE * snd CANONICAL_SIZE) with 4096.
  apply binary64_exact_canonical.
  apply mismatched_between_le.
Qed.

Lemma compare_vectors_binary64_confidence_witness :
  binary64.compare_vectors (repeat 10%Z (3 * 4096)) (repeat 200%Z (3 * 4096))
                           RGB_TOLERANCE
  = binary64.match_percentage
      (Spec.mismatched_pixel_count
         (repeat 10%Z (3 * 4096)) (repeat 200%Z (3 * 4096)) RGB_TOLERANCE
         4096)
      (3 * 4096)
  /\ (4096 = fst CANONICAL_SIZE * snd CANONICAL_SIZE ->
      exists c q,
        binary64.compare_vectors (repeat 10%Z (3 * 4096))
                                 (repeat 200%Z (3 * 4096)) RGB_TOLERANCE
        = Returns c
        /\ binary64.value c = Some q
        /\ (q == binary64.exact_confidence
                   (Spec.mismatched_pixel_count
                      (repeat 10%Z (3 * 4096)) (repeat 200%Z (3 * 4096))
                      RGB_TOLERANCE 4096) 4096)%Q).
Proof.
  apply (compare_vectors_binary64_confidence
           (repeat 10%Z (3 * 4096)) (repeat 200%Z (3 * 4096))
           RGB_TOLERANCE 4096);
    [lia | apply repeat_length | apply repeat_length].
Defined.

(** At the canonical size the rational scorer and the binary64 scorer
    return the same number. *)
Lemma compare_vectors_models_agree (A B : list Z) (T : Z) :
  List.length A = 3 * 4096 -> List.length B = 3 * 4096 ->
  exists (c : spec_float) (q : Q) (r : Qc),
    binary64.compare_vectors A B T = Returns c
    /\ binary64.value c = Some q
    /\ compare_vectors A B T = Returns r
    /\ (q == this r)%Q.
Proof.
  intros HA HB.
  rewrite (binary64_compare_vectors_pixels A B T 4096 HA HB).
  rewrite (compare_vectors_fingerprints A B T 4096 ltac:(lia) HA HB).
  destruct (binary64_exact_canonical (Spec.mismatched_pixel_count A B T 4096)
              (mismatched_between_le A B T 0 4096)) as (c & q & Hc & Hq & Heq).
  exists c, q. eexists. repeat split; [exact Hc | exact Hq|].
  rewrite Heq. symmetry. apply this_confidence. lia.
Qed.

(** C3, as stated, fails: two empty vectors make the scorer divide by zero. *)
Lemma compare_vectors_not_total :
  ~ (forall (a b : list Z) (T : Z),
        (0 <= T)%Z -> exists q : Qc, compare_vectors a b T = Returns q).
Proof.
  intros H. destruct (H [] [] 0%Z ltac:(lia)) as [q Hq].
  vm_compute in Hq. discriminate Hq.
Qed.

(** C3, amended. [compare_vectors] returns a number exactly when the two
    lengths differ or the common length is a multiple of three other than
    zero; on two empty vectors it raises ZeroDivisionError, and on two
    vectors of an equal length that is not a multiple of three it raises
    IndexError. *)
Theorem compare_vectors_returns_iff (a b : list Z) (T : Z) :
  ((exists q : Qc, compare_vectors a b T = Returns q)
   <-> (List.length a <> List.length b
        \/ (0 < List.length a /\ List.length a mod 3 = 0)))
  /\ (compare_vectors a b T = Raises ZeroDivisionError
      <-> (a = [] /\ b = []))
  /\ (compare_vectors a b T = Raises IndexError
      <-> (List.length a = List.length b /\ List.length a mod 3 <> 0)).
Proof.
  destruct (Nat.eq_dec (List.length a) (List.length b)) as [Heq|Hne].
  - pose proof (Nat.div_mod_eq (List.length a) 3) as Hdm.
    pose proof (Nat.mod_upper_bound (List.length a) 3 ltac:(lia)) as Hr.
    remember (List.length a / 3) as k eqn:Hk.
    remember (List.length a mod 3) as r eqn:Hrr.
    destruct (Nat.eq_dec r 0) as [->|Hr0].
    + rewrite Nat.add_0_r in Hdm.
      rewrite (compare_vectors_pixels a b T k) by congruence.
      destruct (Nat.eq_dec k 0) as [->|Hk0].
      * assert (a = []) by (destruct a; [reflexivity|discriminate]).
        assert (b = []) by (destruct b; [reflexivity|simpl in *; lia]).
        subst a b.
        change (Py.float_of_nat 0) with 0%Qc.
        rewrite truediv_zero. cbn [bind].
        repeat split; try (intros; discriminate); try tauto.
        -- intros [q Hq]. discriminate Hq.
        -- intros [H|[H _]]; [now elim H | cbn in H; lia].
      * rewrite truediv_nonzero by (apply float_of_nat_nonzero; lia).
        cbn [bind]. repeat split; try (intros; discriminate).
        -- intros _. right. lia.
        -- intros _. eexists. reflexivity.
        -- intros [-> _]. cbn in Hdm. lia.
        -- intros [_ H]. now elim H.
    + rewrite compare_vectors_same_length by exact Heq.
      rewrite (compare_loop_ragged a b T Heq k r) by lia.
      cbn [bind]. repeat split; try (intros; discriminate).
      * intros [q Hq]. discriminate Hq.
      * intros [H|[_ H]]; [now elim H | lia].
      * intros [-> _]. cbn in Hrr. lia.
      * exact Heq.
      * exact Hr0.
  - assert (Hcv : compare_vectors a b T = Returns 0%Qc).
    { unfold compare_vectors, Py.len.
      destruct (Nat.eqb_spec (List.length a) (List.length b)); [tauto|].
      reflexivity. }
    rewrite Hcv. repeat split; try (intros; discriminate).
    + intros _. now left.
    + intros _. eexists. reflexivity.
    + intros [-> ->]. now elim Hne.
    + intros [H _]. now elim Hne.
Qed.

(** C4. On two fingerprints of differing lengths, whatever the tolerance,
    [compare_vectors] returns 0.0; it raises nothing. *)
Theorem compare_vectors_length_mismatch (a b : list Z) (T : Z) :
  List.length a <> List.length b ->
  compare_vectors a b T = Returns 0%Qc.
Proof.
  intros Hne. unfold compare_vectors, Py.len.
  destruct (Nat.eqb_spec (List.length a) (List.length b)) as [Heq|_].
  - now elim Hne.
  - reflexivity.
Qed.

Lemma compare_vectors_length_mismatch_witness :
  compare_vectors [1; 2; 3]%Z [1; 2; 3; 4; 5; 6]%Z 15 = Returns 0%Qc.
Proof.
  apply (compare_vectors_length_mismatch [1; 2; 3]%Z [1; 2; 3; 4; 5; 6]%Z 15).
  simpl. lia.
Defined.

(** C5. A fingerprint of a canonical grid of [W] x [H] pixels ([W] and [H]
    not zero, as for the 64 x 64 grid of the program), scored against itself
    with a tolerance [T >= 0], has confidence exactly 100.0. *)
Theorem compare_vectors_self_match (F : list Z) (T : Z) (W H : nat) :
  0 < W -> 0 < H -> List.length F = 3 * (W * H) -> (0 <= T)%Z ->
  compare_vectors F F T = Returns (Py.float_of_Z 100).
Proof.
  intros HW HH HF HT.
  assert (HN : 0 < W * H) by (apply Nat.mul_pos_pos; assumption).
  rewrite (compare_vectors_fingerprints F F T (W * H) HN HF HF).
  f_equal. unfold Spec.mismatched_pixel_count.
  rewrite mismatched_between_self by exact HT.
  change (Py.float_of_nat 0) with 0%Qc.
  field. now apply float_of_nat_nonzero.
Qed.

Lemma compare_vectors_self_match_witness :
  compare_vectors (repeat 200%Z (3 * (fst CANONICAL_SIZE * snd CANONICAL_SIZE)))
                  (repeat 200%Z (3 * (fst CANONICAL_SIZE * snd CANONICAL_SIZE)))
                  RGB_TOLERANCE
  = Returns (Py.float_of_Z 100).
Proof.
  apply (compare_vectors_self_match _ RGB_TOLERANCE
           (fst CANONICAL_SIZE) (snd CANONICAL_SIZE)).
  - simpl. lia.
  - simpl. lia.
  - apply repeat_length.
  - unfold RGB_TOLERANCE. lia.
Defined.

(** C6. On two fingerprints of [N] pixels each ([N] not zero), raising the
    tolerance from [T1] to [T2] never lowers the confidence that
    [compare_vectors] returns, because it never raises the number of
    mismatched pixels. *)
Theorem compare_vectors_monotone_in_tolerance
        (A B : list Z) (T1 T2 : Z) (N : nat) :
  0 < N -> List.length A = 3 * N -> List.length B = 3 * N ->
  (T1 <= T2)%Z ->
  exists c1 c2 : Qc,
    compare_vectors A B T1 = Returns c1
    /\ compare_vectors A B T2 = Returns c2
    /\ (c1 <= c2)%Qc
    /\ Spec.mismatched_pixel_count A B T2 N
       <= Spec.mismatched_pixel_count A B T1 N.
Proof.
  intros HN HA HB HT.
  pose proof (mismatched_between_antitone A B T1 T2 0 N HT) as HM.
  fold (Spec.mismatched_pixel_count A B T2 N) in HM.
  fold (Spec.mismatched_pixel_count A B T1 N) in HM.
  rewrite (compare_vectors_fingerprints A B T1 N HN HA HB).
  rewrite (compare_vectors_fingerprints A B T2 N HN HA HB).
  eexists. eexists. repeat split.
  - pose proof (float_of_nat_nonzero N HN) as Hnz.
    apply float_of_nat_le in HM.
    set (m1 := Py.float_of_nat (Spec.mismatched_pixel_count A B T1 N)) in *.
    set (m2 := Py.float_of_nat (Spec.mismatched_pixel_count A B T2 N)) in *.
    apply Qcle_minus_iff.
    replace (Py.float_of_Z 100 - m2 / Py.float_of_nat N * Py.float_of_Z 100
             + - (Py.float_of_Z 100
                  - m1 / Py.float_of_nat N * Py.float_of_Z 100))%Qc
      with ((m1 + - m2) * / Py.float_of_nat N * Py.float_of_Z 100)%Qc
      by (field; exact Hnz).
    apply Qcmult_nonneg; [apply Qcmult_nonneg|].
    + now apply Qcle_minus_iff in HM.
    + apply Qcinv_nonneg. apply Qclt_le_weak. now apply float_of_nat_pos.
    + unfold Qcle. rewrite this_float_of_Z. now vm_compute.
  - exact HM.
Qed.

Lemma compare_vectors_monotone_in_tolerance_witness :
  exists c1 c2 : Qc,
    compare_vectors [10; 20; 30; 40; 50; 60]%Z [10; 20; 35; 40; 50; 90]%Z 3
    = Returns c1
    /\ compare_vectors [10; 20; 30; 40; 50; 60]%Z [10; 20; 35; 40; 50; 90]%Z 15
       = Returns c2
    /\ (c1 <= c2)%Qc
    /\ Spec.mismatched_pixel_count
         [10; 20; 30; 40; 50; 60]%Z [10; 20; 35; 40; 50; 90]%Z 15 2
       <= Spec.mismatched_pixel_count
            [10; 20; 30; 40; 50; 60]%Z [10; 20; 35; 40; 50; 90]%Z 3 2.
Proof.
  apply (compare_vectors_monotone_in_tolerance
           [10; 20; 30; 40; 50; 60]%Z [10; 20; 35; 40; 50; 90]%Z 3 15 2);
    [lia | reflexivity | reflexivity | lia].
Defined.

(** ** File names *)

Section FileNames.

Local Open Scope string_scope.











Lemma substring_all (e : string) : substring 0 (String.length e) e = e.
Proof.
  induction e as [|c e IH]; cbn; [reflexivity | now rewrite IH].
Qed.








End FileNames.

(** ** Dictionaries *)

Section Dict.

Variable V : Type.

Lemma dict_get_set (d : Py.dict V) (k k' : string) (v : V) :
  Py.dict_get (Py.dict_set d k v) k'
  = if String.eqb k k' then Some v else Py.dict_get d k'.
Proof.
  induction d as [|[k0 v0] d IH]; cbn [Py.dict_set Py.dict_get].
  - reflexivity.
  - destruct (String.eqb_spec k0 k) as [->|Hk0]; cbn [Py.dict_get].
    + destruct (String.eqb k k'); reflexivity.
    + rewrite IH. destruct (String.eqb_spec k0 k') as [->|_].
      * destruct (String.eqb_spec k k'); [congruence | reflexivity].
      * reflexivity.
Qed.

Lemma dict_set_keys (d : Py.dict V) (k k' : string) (v : V) :
  In k' (map fst (Py.dict_set d k v)) <-> k' = k \/ In k' (map fst d).
Proof.
  induction d as [|[k0 v0] d IH]; cbn [Py.dict_set map fst In].
  - intuition.
  - destruct (String.eqb_spec k0 k) as [->|Hk0]; cbn [map fst In].
    + intuition.
    + rewrite IH. intuition.
Qed.

(** Assignment keeps the keys of a dictionary distinct. *)
Lemma dict_set_nodup (d : Py.dict V) (k : string) (v : V) :
  NoDup (map fst d) -> NoDup (map fst (Py.dict_set d k v)).
Proof.
  induction d as [|[k0 v0] d IH]; cbn [Py.dict_set map fst]; intros Hd.
  - constructor; [intros [] | constructor].
  - inversion Hd as [|? ? Hnotin Hd']; subst.
    destruct (String.eqb_spec k0 k) as [->|Hk0]; cbn [map fst].
    + now constructor.
    + constructor; [|now apply IH].
      rewrite dict_set_keys. intros [->|H]; [now elim Hk0 | now elim Hnotin].
Qed.

End Dict.

(** ** Batch indexing *)

Section Indexing.

Variable env : environment.

Lemma get_feature_vector_cases (file_path : string) :
  match resized_pixels env file_path with
  | Returns data =>
      get_feature_vector env file_path
      = ([], Returns (Some (flatten_pixels data)))
  | Raises e =>
      exists o, Spec.is_decode_error o = true
                /\ get_feature_vector env file_path = ([o], Returns None)
  end.
Proof.
  unfold get_feature_vector.
  destruct (resized_pixels env file_path) as [data|e]; [reflexivity|].
  destruct e; eexists; (split; [|reflexivity]); reflexivity.
Qed.

(** The scan of a listing: it returns, it counts the files it indexes,
    each key ends on the fingerprint of the last indexed file that has it,
    it prints one error line per file that fails and nothing else, and the
    keys stay distinct. *)
Lemma index_loop_spec (listing : list string) :
  forall (index_data : Py.dict (list Z)) (new_count : nat),
  exists (log : list output) (index_data' : Py.dict (list Z)),
    index_loop env listing index_data new_count
    = (log, Returns (new_count + Spec.indexed_count env listing, index_data'))
    /\ (forall k,
           Py.dict_get index_data' k
           = match Spec.last_indexed env listing k with
             | Some v => Some v
             | None => Py.dict_get index_data k
             end)
    /\ Forall (fun o => Spec.is_decode_error o = true) log
    /\ List.length log = Spec.failed_count env listing
    /\ (NoDup (map fst index_data) -> NoDup (map fst index_data')).
Proof.
  induction listing as [|filename rest IH]; intros index_data new_count.
  - exists [], index_data. cbn. rewrite Nat.add_0_r. repeat split; auto.
  - cbn [index_loop].
    change (fst (Py.splitext filename)) with (Spec.display_name filename).
    fold (Spec.recognized filename).
    unfold Spec.indexed_count, Spec.failed_count.
    cbn [filter Spec.last_indexed].
    pose proof (get_feature_vector_cases (Py.path_join IMAGE_DIR filename))
      as Hgfv.
    assert (Hiv : Spec.indexed_vector env filename
                  = if Spec.recognized filename
                    then match resized_pixels env
                                 (Py.path_join IMAGE_DIR filename) with
                         | Returns data =>
                             match flatten_pixels data with
                             | [] => None
                             | x :: v => Some (x :: v)
                             end
                         | Raises _ => None
                         end
                    else None) by reflexivity.
    assert (Hfd : Spec.fails_to_decode env filename
                  = Spec.recognized filename
                    && match resized_pixels env
                               (Py.path_join IMAGE_DIR filename) with
                       | Returns _ => false
                       | Raises _ => true
                       end) by reflexivity.
    destruct (Spec.recognized filename) eqn:Hrec; cbn [andb] in Hfd.
    + destruct (resized_pixels env (Py.path_join IMAGE_DIR filename))
        as [data|e].
      * rewrite Hgfv. unfold io_bind.
        destruct (flatten_pixels data) as [|x v] eqn:Hflat.
        -- destruct (IH index_data new_count)
             as (log & d' & Hrun & Hget & Hlog & Hlen & Hnd).
           rewrite Hrun, Hiv, Hfd. exists log, d'. cbn [app Spec.is_some].
           split; [reflexivity|]. split; [|auto].
           intros k. rewrite Hget.
           destruct (Spec.last_indexed env rest k); [reflexivity|].
           now destruct (String.eqb (Spec.display_name filename) k).
        -- destruct (IH (Py.dict_set index_data
                           (Spec.display_name filename) (x :: v))
                        (S new_count))
             as (log & d' & Hrun & Hget & Hlog & Hlen & Hnd).
           rewrite Hrun, Hiv, Hfd. exists log, d'.
           cbn [app Spec.is_some List.length].
           split; [|split; [|split; [exact Hlog|split; [exact Hlen|]]]].
           ++ f_equal. f_equal. f_equal. unfold Spec.indexed_count. lia.
           ++ intros k. rewrite Hget, dict_get_set.
              destruct (Spec.last_indexed env rest k); [reflexivity|].
              now destruct (String.eqb (Spec.display_name filename) k).
           ++ intros Hd. apply Hnd. now apply dict_set_nodup.
      * destruct Hgfv as (o & Ho & Hgfv). rewrite Hgfv. unfold io_bind.
        destruct (IH index_data new_count)
          as (log & d' & Hrun & Hget & Hlog & Hlen & Hnd).
        rewrite Hrun, Hiv, Hfd. exists (o :: log), d'.
        cbn [app Spec.is_some List.length].
        split; [reflexivity|].
        split; [|split; [now constructor|split; [|exact Hnd]]].
        -- intros k. rewrite Hget.
           destruct (Spec.last_indexed env rest k); [reflexivity|].
           now destruct (String.eqb (Spec.display_name filename) k).
        -- unfold Spec.failed_count in Hlen. now rewrite Hlen.
    + destruct (IH index_data new_count)
        as (log & d' & Hrun & Hget & Hlog & Hlen & Hnd).
      rewrite Hrun, Hiv, Hfd. exists log, d'. cbn [Spec.is_some].
      split; [reflexivity|]. split; [|auto].
      intros k. rewrite Hget.
      destruct (Spec.last_indexed env rest k); [reflexivity|].
      now destruct (String.eqb (Spec.display_name filename) k).
Qed.

End Indexing.

Section IndexingFacts.

Variable env : environment.


Lemma last_indexed_none (l : list string) (k : string) :
  (forall f, In f l -> Spec.display_name f = k ->
             Spec.indexed_vector env f = None) ->
  Spec.last_indexed env l k = None.
Proof.
  induction l as [|f l IH]; intros H; cbn [Spec.last_indexed].
  - reflexivity.
  - rewrite IH by (intros f' Hin; apply H; now right).
    destruct (String.eqb_spec (Spec.display_name f) k) as [Hk|_].
    + apply H; [now left | exact Hk].
    + reflexivity.
Qed.

(** A file that gets indexed leaves a fingerprint under its key. *)
Lemma last_indexed_some (l : list string) (f : string) (v : list Z) :
  In f l -> Spec.indexed_vector env f = Some v ->
  exists v', Spec.last_indexed env l (Spec.display_name f) = Some v'.
Proof.
  induction l as [|f0 l IH]; intros Hin Hv; [now elim Hin|].
  cbn [Spec.last_indexed].
  destruct (Spec.last_indexed env l (Spec.display_name f)) as [v0|] eqn:Hl.
  - now exists v0.
  - destruct Hin as [->|Hin].
    + rewrite String.eqb_refl, Hv. now exists v.
    + destruct (IH Hin Hv) as [v' Hv']. discriminate Hv'.
Qed.

Lemma error_lines_all (log : list output) :
  Forall (fun o => Spec.is_decode_error o = true) log ->
  Spec.error_lines log = List.length log.
Proof.
  unfold Spec.error_lines.
  induction 1 as [|o log Ho _ IH]; cbn [filter List.length].
  - reflexivity.
  - rewrite Ho. cbn [List.length]. now rewrite IH.
Qed.

End IndexingFacts.

(** C8, as stated, fails: on the batch of three with an undecodable second
    item the number returned is 2, the files indexed, and not 1, the files
    that failed. *)
Lemma index_all_images_does_not_count_failures :
  ~ (forall (env : environment) (listing : list string)
            (index_data : Py.dict (list Z)),
        image_dir env = Some listing ->
        exists log index_data',
          index_all_images env index_data
          = (log, Returns (Spec.failed_count env listing, index_data'))).
Proof.
  intros H.
  destruct (H three_files_env ["1.png"; "2.png"; "3.png"]%string []
              eq_refl) as (log & d' & Hrun).
  vm_compute in Hrun. discriminate Hrun.
Qed.

(** C8, amended. Batch indexing has partial-failure semantics: the scan
    of a listing always runs to its end; a recognised file whose image fails
    to decode is skipped and reported by one error line of its own; every
    recognised file that decodes leaves a fingerprint under its key (each key
    holds the fingerprint of the last indexed file that has it, other keys
    are untouched); and the number returned is the number of files indexed,
    not the number of failures. *)
Theorem index_all_images_partial_failure
        (env : environment) (listing : list string)
        (index_data : Py.dict (list Z)) :
  image_dir env = Some listing ->
  exists (log : list output) (index_data' : Py.dict (list Z)),
    index_all_images env index_data
    = (log, Returns (Spec.indexed_count env listing, index_data'))
    /\ Spec.error_lines log = Spec.failed_count env listing
    /\ (forall f v,
           In f listing -> Spec.indexed_vector env f = Some v ->
           exists v', Py.dict_get index_data' (Spec.display_name f) = Some v')
    /\ (forall k,
           Py.dict_get index_data' k
           = match Spec.last_indexed env listing k with
             | Some v => Some v
             | None => Py.dict_get index_data k
             end).
Proof.
  intros Hdir. unfold index_all_images. rewrite Hdir.
  destruct (index_loop_spec env listing index_data 0)
    as (log & d' & Hrun & Hget & Hlog & Hlen & _).
  exists (StartingIndexing :: log), d'.
  unfold io_bind, print. rewrite Hrun. cbn [app Nat.add].
  repeat split.
  - unfold Spec.error_lines. cbn [filter Spec.is_decode_error].
    fold (Spec.error_lines log). now rewrite error_lines_all.
  - intros f v Hin Hv.
    destruct (last_indexed_some env listing f v Hin Hv) as [v' Hv'].
    exists v'. now rewrite Hget, Hv'.
  - exact Hget.
Qed.

Lemma index_all_images_partial_failure_witness :
  exists (log : list output) (index_data' : Py.dict (list Z)),
    index_all_images three_files_env []
    = (log, Returns (Spec.indexed_count three_files_env
                       ["1.png"; "2.png"; "3.png"]%string, index_data'))
    /\ Spec.error_lines log
       = Spec.failed_count three_files_env ["1.png"; "2.png"; "3.png"]%string
    /\ (forall f v,
           In f ["1.png"; "2.png"; "3.png"]%string ->
           Spec.indexed_vector three_files_env f = Some v ->
           exists v', Py.dict_get index_data' (Spec.display_name f) = Some v')
    /\ (forall k,
           Py.dict_get index_data' k
           = match Spec.last_indexed three_files_env
                     ["1.png"; "2.png"; "3.png"]%string k with
             | Some v => Some v
             | None => Py.dict_get [] k
             end).
Proof.
  apply (index_all_images_partial_failure three_files_env
           ["1.png"; "2.png"; "3.png"]%string []).
  reflexivity.
Defined.

(** The batch of three with an undecodable second item, run: items 1 and 3
    are in the catalogue, one error line is printed, and 2 is returned. *)
Example index_all_images_three_files :
  index_all_images three_files_env []
  = ([StartingIndexing;
      ErrorProcessingImage "images/2.png"
        (OtherException "cannot identify image file")],
     Returns (2, [("1"%string, [10; 20; 30; 40; 50; 60]%Z);
                  ("3"%string, [10; 20; 30; 40; 50; 60]%Z)])).
Proof. vm_compute. reflexivity. Qed.




(** One name in three formats, run: the three files count, and the
    fingerprint of "a.jpeg", enumerated last, is the one left under "a". *)
Example index_all_images_three_formats :
  index_all_images three_formats_env [("a"%string, [9; 9; 9]%Z)]
  = ([StartingIndexing], Returns (3, [("a"%string, [3; 3; 3]%Z)])).
Proof. vm_compute. reflexivity. Qed.

(** Two files named by an extension alone, run: two keys, two
    fingerprints. *)
Example index_all_images_dot_files :
  index_all_images dot_files_env []
  = ([StartingIndexing],
     Returns (2, [(".png"%string, [1; 1; 1]%Z);
                  (".jpg"%string, [2; 2; 2]%Z)])).
Proof. vm_compute. reflexivity. Qed.

(** The two files of one stem, run: the fingerprint of "a.jpg", enumerated
    last, is the one left under the key "a". *)
Example index_all_images_same_stem :
  index_all_images same_stem_env []
  = ([StartingIndexing], Returns (2, [("a"%string, [2; 2; 2]%Z)])).
Proof. vm_compute. reflexivity. Qed.

(** A name made of dots and an extension has no extension for [splitext]:
    it is its own key. *)
Example display_name_dotfile :
  Spec.display_name ".png" = ".png"%string
  /\ Spec.display_name "a.b.png" = "a.b"%string
  /\ Spec.display_name "A.JPEG" = "A"%string.
Proof. repeat split. Qed.

(** ** The durable store *)

(** On a store that is absent, parsable or rejected by [json.load] with
    JSONDecodeError, [load_index] does not fail its caller: on an absent
    file it returns the empty catalogue; on a JSONDecodeError it prints the
    warning and returns the empty catalogue; on a parsable file it returns
    what the file holds. *)
Lemma load_index_never_fails (env : environment) :
  (index_file env = None
   \/ index_file env = Some (Raises JSONDecodeError)
   \/ exists data, index_file env = Some (Returns data)) ->
  exists (log : list output) (catalogue : Py.dict (list Z)),
    load_index env = (log, Returns catalogue)
    /\ (index_file env = None -> catalogue = [] /\ log = [])
    /\ (index_file env = Some (Raises JSONDecodeError) ->
        catalogue = [] /\ log = [WarningIndexCorrupted])
    /\ (forall data, index_file env = Some (Returns data) ->
                     catalogue = data /\ log = []).
Proof.
  unfold load_index.
  intros [H|[H|[data H]]]; rewrite H.
  - exists [], []. repeat split; intros; congruence.
  - exists [WarningIndexCorrupted], []. repeat split; intros; congruence.
  - exists [], data. repeat split; intros; congruence.
Qed.

Lemma load_index_never_fails_witness :
  exists (log : list output) (catalogue : Py.dict (list Z)),
    load_index same_stem_env = (log, Returns catalogue)
    /\ (index_file same_stem_env = None -> catalogue = [] /\ log = [])
    /\ (index_file same_stem_env = Some (Raises JSONDecodeError) ->
        catalogue = [] /\ log = [WarningIndexCorrupted])
    /\ (forall data, index_file same_stem_env = Some (Returns data) ->
                     catalogue = data /\ log = []).
Proof.
  apply (load_index_never_fails same_stem_env).
  right. left. reflexivity.
Defined.

(** C7. The code misses a case of an unparsable store: when the file is
    present and [json.load] rejects it with an exception other than
    JSONDecodeError, as it does with UnicodeDecodeError on bytes that are
    not valid text, [load_index] prints no warning and returns no
    catalogue: the exception reaches the caller. *)
Theorem load_index_raises_on_other_exception (env : environment) (e : exn) :
  index_file env = Some (Raises e) -> e <> JSONDecodeError ->
  load_index env = ([], Raises e).
Proof.
  intros Hfile He. unfold load_index. rewrite Hfile.
  destruct e; try reflexivity. now elim He.
Qed.

Lemma load_index_raises_on_other_exception_witness :
  load_index undecodable_store_env = ([], Raises UnicodeDecodeError).
Proof.
  apply (load_index_raises_on_other_exception undecodable_store_env
           UnicodeDecodeError).
  - reflexivity.
  - discriminate.
Defined.

(** ** Sorting *)

Section SortReverse.

Variable A : Type.
Variable key : A -> Qc.

Lemma float_lt_iff (x y : Qc) : Py.float_lt x y = true <-> (x < y)%Qc.
Proof.
  unfold Py.float_lt. rewrite Qclt_alt.
  destruct (x ?= y)%Qc; split; intros H; congruence.
Qed.

Lemma float_lt_false_iff (x y : Qc) : Py.float_lt x y = false <-> (y <= x)%Qc.
Proof.
  split; intros H.
  - apply Qcnot_lt_le. intros Hlt. apply float_lt_iff in Hlt. congruence.
  - destruct (Py.float_lt x y) eqn:Hlt; [|reflexivity].
    apply float_lt_iff in Hlt. now apply Qcle_not_lt in H.
Qed.

Lemma Qc_eq_bool_refl (x : Qc) : Qc_eq_bool x x = true.
Proof. unfold Qc_eq_bool. now destruct (Qc_eq_dec x x). Qed.

Lemma Qc_eq_bool_lt (x y c : Qc) :
  (x < y)%Qc -> Qc_eq_bool x c = true -> Qc_eq_bool y c = false.
Proof.
  intros Hlt Hx. apply Qc_eq_bool_correct in Hx. subst c.
  unfold Qc_eq_bool. destruct (Qc_eq_dec y x) as [->|_]; [|reflexivity].
  exfalso. revert Hlt. apply Qcle_not_lt, Qcle_refl.
Qed.

Lemma insert_reverse_perm (x : A) (l : list A) :
  Permutation (x :: l) (Py.insert_reverse key x l).
Proof.
  induction l as [|y l IH]; cbn [Py.insert_reverse].
  - apply Permutation_refl.
  - destruct (Py.float_lt (key x) (key y)).
    + eapply perm_trans; [apply perm_swap|]. now apply perm_skip.
    + apply Permutation_refl.
Qed.

Lemma insert_reverse_sorted (x : A) (l : list A) :
  Spec.sorted_reverse key l ->
  Spec.sorted_reverse key (Py.insert_reverse key x l).
Proof.
  unfold Spec.sorted_reverse.
  induction l as [|y l IH]; intros Hs; cbn [Py.insert_reverse].
  - constructor; constructor.
  - inversion Hs as [|? ? Hl Hy]; subst.
    destruct (Py.float_lt (key x) (key y)) eqn:Hlt.
    + apply float_lt_iff in Hlt. constructor; [now apply IH|].
      apply (Permutation_Forall (insert_reverse_perm x l)).
      constructor; [now apply Qclt_le_weak | exact Hy].
    + apply float_lt_false_iff in Hlt. constructor; [exact Hs|].
      constructor; [exact Hlt|].
      eapply Forall_impl; [|exact Hy].
      intros z Hz. cbn beta in Hz. now apply Qcle_trans with (key y).
Qed.

(** Insertion keeps the elements of one key in their order, the new one
    first. *)
Lemma insert_reverse_stable (c : Qc) (x : A) (l : list A) :
  filter (Spec.same_key key c) (Py.insert_reverse key x l)
  = filter (Spec.same_key key c) (x :: l).
Proof.
  induction l as [|y l IH]; cbn [Py.insert_reverse]; [reflexivity|].
  destruct (Py.float_lt (key x) (key y)) eqn:Hlt; [|reflexivity].
  apply float_lt_iff in Hlt.
  cbn [filter] in *. rewrite IH.
  destruct (Spec.same_key key c x) eqn:Hx; [|reflexivity].
  unfold Spec.same_key in *. now rewrite (Qc_eq_bool_lt _ _ _ Hlt Hx).
Qed.

Lemma sort_reverse_perm (l : list A) : Permutation l (Py.sort_reverse key l).
Proof.
  induction l as [|x l IH]; cbn [Py.sort_reverse]; [constructor|].
  eapply perm_trans; [|apply insert_reverse_perm]. now apply perm_skip.
Qed.

Lemma sort_reverse_sorted (l : list A) :
  Spec.sorted_reverse key (Py.sort_reverse key l).
Proof.
  induction l as [|x l IH]; cbn [Py.sort_reverse]; [constructor|].
  now apply insert_reverse_sorted.
Qed.

Lemma sort_reverse_stable (c : Qc) (l : list A) :
  filter (Spec.same_key key c) (Py.sort_reverse key l)
  = filter (Spec.same_key key c) l.
Proof.
  induction l as [|x l IH]; cbn [Py.sort_reverse]; [reflexivity|].
  rewrite insert_reverse_stable. cbn [filter]. now rewrite IH.
Qed.

End SortReverse.

(** ** The matcher *)

Lemma io_bind_returns (A B : Type) (m : io A) (k : A -> io B) (a : A) :
  snd m = Returns a -> snd (io_bind m k) = snd (k a).
Proof.
  destruct m as [log r]. cbn. intros ->. cbn. now destruct (k a).
Qed.

Lemma io_outcome (A : Type) (m : io A) (r : result A) :
  snd m = r -> exists log, m = (log, r).
Proof.
  destruct m as [log r']. cbn. intros ->. now exists log.
Qed.

Lemma flatten_pixels_length (data : list (Z * Z * Z)) :
  List.length (flatten_pixels data) = 3 * List.length data.
Proof.
  unfold flatten_pixels.
  induction data as [|[[r g] b] data IH]; cbn [flat_map List.length app].
  - reflexivity.
  - rewrite IH. lia.
Qed.

(** A query of [N] pixels, [N] not zero, gets a score against any vector. *)
Lemma compare_vectors_query (a b : list Z) (T : Z) (N : nat) :
  0 < N -> List.length a = 3 * N ->
  exists q, compare_vectors a b T = Returns q.
Proof.
  intros HN Ha.
  destruct (Nat.eq_dec (List.length a) (List.length b)) as [Heq|Hne].
  - rewrite (compare_vectors_fingerprints a b T N HN Ha) by congruence.
    eexists. reflexivity.
  - exists 0%Qc. unfold compare_vectors, Py.len.
    destruct (Nat.eqb_spec (List.length a) (List.length b)); [tauto|].
    reflexivity.
Qed.

Lemma score_loop_spec (new_vector : list Z) (N : nat) :
  0 < N -> List.length new_vector = 3 * N ->
  forall (items : list (string * list Z)) (acc : list main.match_result),
  exists results,
    snd (main.score_loop new_vector items acc) = Returns (acc ++ results)
    /\ Spec.scored new_vector items results.
Proof.
  intros HN Hlen. induction items as [|[name v] items IH]; intros acc.
  - exists []. cbn. rewrite app_nil_r. split; [reflexivity | constructor].
  - destruct (compare_vectors_query new_vector v RGB_TOLERANCE N HN Hlen)
      as [q Hq].
    cbn [main.score_loop].
    rewrite (io_bind_returns _ _ _ _ q) by (unfold lift; now rewrite Hq).
    rewrite (io_bind_returns _ _ _ _ tt)
      by (now destruct (Py.float_gt q (Py.float_of_Z 99))).
    destruct (IH (acc ++ [{| main.name := name; main.confidence := q |}]))
      as (results & Hrun & Hscored).
    exists ({| main.name := name; main.confidence := q |} :: results).
    rewrite Hrun, <- app_assoc. split; [reflexivity|].
    constructor; [|exact Hscored]. now split.
Qed.

Lemma print_top_returns (results : list main.match_result) (i : nat) :
  snd (main.print_top i results) = Returns tt.
Proof.
  revert i. induction results as [|r results IH]; intros i;
    cbn [main.print_top]; [reflexivity|].
  now rewrite (io_bind_returns _ _ _ _ tt).
Qed.

Lemma copy_to_clipboard_returns (env : environment) (text : string) :
  snd (main.copy_to_clipboard env text) = Returns tt.
Proof.
  unfold main.copy_to_clipboard.
  destruct (clipboard_enabled env); [|reflexivity].
  now destruct (pyperclip_copy env text).
Qed.

(** A run on an input that decodes to at least one pixel: every entry is
    scored, the scores are sorted, the first is the best match. *)
Lemma run_comparison_logic_spec
      (env : environment) (input_path : string)
      (index_data : Py.dict (list Z)) (data : list (Z * Z * Z)) :
  resized_pixels env input_path = Returns data -> data <> [] ->
  exists scored,
    Spec.scored (flatten_pixels data) (Py.dict_items index_data) scored
    /\ snd (main.run_comparison_logic env input_path index_data)
       = Returns
           (Some {| main.match_results :=
                      Py.sort_reverse main.confidence scored;
                    main.best_match :=
                      match Py.sort_reverse main.confidence scored with
                      | first :: _ => first
                      | [] => Spec.no_entries
                      end |}).
Proof.
  intros Hpix Hdata.
  pose proof (flatten_pixels_length data) as Hlen.
  assert (HN : 0 < List.length data)
    by (destruct data; [now elim Hdata | cbn; lia]).
  destruct (score_loop_spec (flatten_pixels data) (List.length data) HN Hlen
              (Py.dict_items index_data) [])
    as (scored & Hrun & Hscored).
  exists scored. split; [exact Hscored|].
  unfold main.run_comparison_logic.
  pose proof (get_feature_vector_cases env input_path) as Hgfv.
  rewrite Hpix in Hgfv.
  rewrite (io_bind_returns _ _ _ _ (Some (flatten_pixels data)))
    by now rewrite Hgfv.
  destruct (flatten_pixels data) as [|x v] eqn:Hflat; [cbn in Hlen; lia|].
  rewrite (io_bind_returns _ _ _ _ tt) by reflexivity.
  rewrite (io_bind_returns _ _ _ _ scored) by exact Hrun.
  rewrite (io_bind_returns _ _ _ _ tt) by reflexivity.
  rewrite (io_bind_returns _ _ _ _ tt) by apply print_top_returns.
  rewrite (io_bind_returns _ _ _ _ tt) by reflexivity.
  rewrite (io_bind_returns _ _ _ _ tt); [reflexivity|].
  match goal with
  | |- snd (if ?b then _ else _) = _ => destruct b
  end; [|reflexivity].
  rewrite (io_bind_returns _ _ _ _ tt) by reflexivity.
  rewrite (io_bind_returns _ _ _ _ tt) by reflexivity.
  apply copy_to_clipboard_returns.
Qed.

(** C2. A run of the matcher on a query that decodes ranks the whole
    catalogue: the result holds one (name, confidence) entry per catalogue
    entry, the confidence being what the scorer returns for it; the entries
    are sorted by descending confidence; and entries of equal confidence
    keep the order in which the catalogue enumerates them.  The ranking is a
    function of the query and the catalogue, so a repeated run gives the
    same order. *)
Theorem run_comparison_logic_ranking
        (env : environment) (input_path : string)
        (index_data : Py.dict (list Z)) (data : list (Z * Z * Z)) :
  resized_pixels env input_path = Returns data -> data <> [] ->
  exists (log : list output) (scored ranking : list main.match_result)
         (best : main.match_result),
    main.run_comparison_logic env input_path index_data
    = (log, Returns (Some {| main.match_results := ranking;
                             main.best_match := best |}))
    /\ Spec.scored (flatten_pixels data) (Py.dict_items index_data) scored
    /\ List.length ranking = List.length index_data
    /\ Permutation scored ranking
    /\ Spec.descending ranking
    /\ (forall c, Spec.with_confidence c ranking
                  = Spec.with_confidence c scored).
Proof.
  intros Hpix Hdata.
  destruct (run_comparison_logic_spec env input_path index_data data
              Hpix Hdata) as (scored & Hscored & Hrun).
  destruct (io_outcome _ _ _ Hrun) as [log Hlog].
  exists log, scored, (Py.sort_reverse main.confidence scored).
  eexists.
  split; [exact Hlog|]. split; [exact Hscored|].
  repeat split.
  - rewrite <- (Permutation_length (sort_reverse_perm _ main.confidence scored)).
    symmetry. exact (Forall2_length Hscored).
  - apply sort_reverse_perm.
  - apply sort_reverse_sorted.
  - intros c. apply sort_reverse_stable.
Qed.

Lemma run_comparison_logic_ranking_witness :
  exists (log : list output) (scored ranking : list main.match_result)
         (best : main.match_result),
    main.run_comparison_logic same_stem_env "query.png" tie_catalogue
    = (log, Returns (Some {| main.match_results := ranking;
                             main.best_match := best |}))
    /\ Spec.scored (flatten_pixels [(2, 2, 2)%Z]) (Py.dict_items tie_catalogue)
         scored
    /\ List.length ranking = List.length tie_catalogue
    /\ Permutation scored ranking
    /\ Spec.descending ranking
    /\ (forall c, Spec.with_confidence c ranking
                  = Spec.with_confidence c scored).
Proof.
  apply (run_comparison_logic_ranking same_stem_env "query.png" tie_catalogue
           [(2, 2, 2)%Z]).
  - reflexivity.
  - discriminate.
Defined.

(** The ranking of the sample catalogue: "B" and "C", both at 100, stay in
    catalogue order in front of "A" and "D", both at 0. *)
Example run_comparison_logic_tie :
  exists log ranking best,
    main.run_comparison_logic same_stem_env "query.png" tie_catalogue
    = (log, Returns (Some {| main.match_results := ranking;
                             main.best_match := best |}))
    /\ map main.name ranking = ["B"; "C"; "A"; "D"]%string
    /\ map (fun m => this (main.confidence m)) ranking
       = [100 # 1; 100 # 1; 0 # 1; 0 # 1]%Q
    /\ main.name best = "B"%string.
Proof.
  destruct (main.run_comparison_logic same_stem_env "query.png" tie_catalogue)
    as [log r] eqn:Hrun.
  vm_compute in Hrun.
  injection Hrun as Hlog Hr. subst r.
  eexists. eexists. eexists.
  split; [reflexivity|]. repeat split.
Qed.

(** Ranking stability on the scores of the specification: A at 80, B and C
    at 95. *)
Example sort_reverse_stability :
  map main.name
      (Py.sort_reverse main.confidence
         [{| main.name := "A"; main.confidence := Py.float_of_Z 80 |};
          {| main.name := "B"; main.confidence := Py.float_of_Z 95 |};
          {| main.name := "C"; main.confidence := Py.float_of_Z 95 |}])
  = ["B"; "C"; "A"]%string.
Proof. vm_compute. reflexivity. Qed.

(** C9. A run of the matcher on a query that decodes, against an empty
    catalogue, returns normally: the ranking is empty and the best match is
    the "no entries" sentinel, of name "None" and confidence 0.0. *)
Theorem run_comparison_logic_empty_catalogue
        (env : environment) (input_path : string) (data : list (Z * Z * Z)) :
  resized_pixels env input_path = Returns data -> data <> [] ->
  exists log : list output,
    main.run_comparison_logic env input_path []
    = (log, Returns (Some {| main.match_results := [];
                             main.best_match := Spec.no_entries |})).
Proof.
  intros Hpix Hdata.
  destruct (run_comparison_logic_spec env input_path [] data Hpix Hdata)
    as (scored & Hscored & Hrun).
  inversion Hscored; subst.
  exact (io_outcome _ _ _ Hrun).
Qed.

Lemma run_comparison_logic_empty_catalogue_witness :
  exists log : list output,
    main.run_comparison_logic same_stem_env "query.png" []
    = (log, Returns (Some {| main.match_results := [];
                             main.best_match := Spec.no_entries |})).
Proof.
  apply (run_comparison_logic_empty_catalogue same_stem_env "query.png"
           [(2, 2, 2)%Z]).
  - reflexivity.
  - discriminate.
Defined.

(** * Further properties of the code *)

(** ** The similarity scorer *)

(** The three ways a call of the scorer can end. *)
Lemma compare_vectors_cases (a b : list Z) (T : Z) :
  (List.length a <> List.length b /\ compare_vectors a b T = Returns 0%Qc)
  \/ (exists N,
         0 < N /\ List.length a = 3 * N /\ List.length b = 3 * N
         /\ compare_vectors a b T
            = Returns (Py.float_of_Z 100
                       - Py.float_of_nat (Spec.mismatched_pixel_count a b T N)
                         / Py.float_of_nat N * Py.float_of_Z 100)%Qc)
  \/ (List.length a = List.length b
      /\ exists e, compare_vectors a b T = Raises e).
Proof.
  destruct (Nat.eq_dec (List.length a) (List.length b)) as [Heq|Hne].
  - right.
    pose proof (Nat.div_mod_eq (List.length a) 3) as Hdm.
    pose proof (Nat.mod_upper_bound (List.length a) 3 ltac:(lia)) as Hr.
    destruct (Nat.eq_dec (List.length a mod 3) 0) as [Hr0|Hr0].
    + rewrite Hr0, Nat.add_0_r in Hdm.
      destruct (Nat.eq_dec (List.length a / 3) 0) as [Hk0|Hk0].
      * right. split; [exact Heq|].
        rewrite (compare_vectors_pixels a b T 0) by lia.
        change (Py.float_of_nat 0) with 0%Qc. rewrite truediv_zero.
        eexists. reflexivity.
      * left. exists (List.length a / 3).
        split; [lia|]. split; [exact Hdm|]. split; [congruence|].
        apply compare_vectors_fingerprints; [lia | exact Hdm | congruence].
    + right. split; [exact Heq|].
      rewrite compare_vectors_same_length by exact Heq.
      rewrite (compare_loop_ragged a b T Heq (List.length a / 3)
                 (List.length a mod 3)) by lia.
      eexists. reflexivity.
  - left. split; [exact Hne|].
    unfold compare_vectors, Py.len.
    destruct (Nat.eqb_spec (List.length a) (List.length b)); [tauto|].
    reflexivity.
Qed.

Lemma float_100_nonneg : (0 <= Py.float_of_Z 100)%Qc.
Proof. unfold Qcle. rewrite this_float_of_Z. now vm_compute. Qed.

(** The share of mismatched pixels, times 100, lies between 0 and 100. *)
Lemma mismatch_share_bounds (m n : nat) :
  0 < n -> m <= n ->
  (0 <= Py.float_of_nat m / Py.float_of_nat n * Py.float_of_Z 100)%Qc
  /\ (Py.float_of_nat m / Py.float_of_nat n * Py.float_of_Z 100
      <= Py.float_of_Z 100)%Qc.
Proof.
  intros Hn Hmn.
  pose proof (float_of_nat_nonzero n Hn) as Hnz.
  assert (Hinv : (0 <= / Py.float_of_nat n)%Qc).
  { apply Qcinv_nonneg, Qclt_le_weak. now apply float_of_nat_pos. }
  assert (Hm : (0 <= Py.float_of_nat m)%Qc).
  { change 0%Qc with (Py.float_of_nat 0). apply float_of_nat_le. lia. }
  split.
  - apply Qcmult_nonneg; [|exact float_100_nonneg].
    unfold Qcdiv. now apply Qcmult_nonneg.
  - replace (Py.float_of_Z 100) with
      (Py.float_of_nat n / Py.float_of_nat n * Py.float_of_Z 100)%Qc at 2
      by (field; exact Hnz).
    apply Qcmult_le_compat_r; [|exact float_100_nonneg].
    unfold Qcdiv. apply Qcmult_le_compat_r; [|exact Hinv].
    now apply float_of_nat_le.
Qed.

(** A confidence that the scorer returns is a percentage. *)
Lemma compare_vectors_bounds (a b : list Z) (T : Z) (c : Qc) :
  compare_vectors a b T = Returns c ->
  (0 <= c)%Qc /\ (c <= Py.float_of_Z 100)%Qc.
Proof.
  intros Hc.
  destruct (compare_vectors_cases a b T)
    as [[_ H]|[(N & HN & Ha & Hb & H)|[_ [e H]]]];
    rewrite H in Hc; [| |discriminate Hc]; injection Hc as <-.
  - split; [apply Qcle_refl | exact float_100_nonneg].
  - pose proof (mismatched_between_le a b T 0 N) as HM.
    fold (Spec.mismatched_pixel_count a b T N) in HM.
    destruct (mismatch_share_bounds _ N HN HM) as [Hlo Hhi].
    set (x := (Py.float_of_nat (Spec.mismatched_pixel_count a b T N)
               / Py.float_of_nat N * Py.float_of_Z 100)%Qc) in *.
    split.
    + apply Qcle_minus_iff.
      replace (Py.float_of_Z 100 - x + - 0)%Qc
        with (Py.float_of_Z 100 + - x)%Qc by ring.
      now apply Qcle_minus_iff in Hhi.
    + apply Qcle_minus_iff.
      replace (Py.float_of_Z 100 + - (Py.float_of_Z 100 - x))%Qc
        with x by ring.
      exact Hlo.
Qed.

(** X1. Whenever the scorer returns, on any two vectors and for any
    tolerance, the confidence is a percentage: it lies between 0 and 100. *)
Theorem compare_vectors_range (a b : list Z) (T : Z) (c : Qc) :
  compare_vectors a b T = Returns c ->
  (0 <= c)%Qc /\ (c <= Py.float_of_Z 100)%Qc.
Proof.
  exact (compare_vectors_bounds a b T c).
Qed.

Lemma compare_vectors_range_witness :
  (0 <= Py.float_of_Z 50)%Qc /\ (Py.float_of_Z 50 <= Py.float_of_Z 100)%Qc.
Proof.
  apply (compare_vectors_range
           [10; 20; 30; 40; 50; 60]%Z [10; 20; 30; 40; 50; 90]%Z 15).
  rewrite (compare_vectors_fingerprints _ _ _ 2);
    [|lia|reflexivity|reflexivity].
  apply f_equal. apply Qc_is_canon. vm_compute. reflexivity.
Defined.

Lemma getitem_same_length (a b : list Z) (i : nat) :
  List.length a = List.length b ->
  (exists x y, Py.getitem a i = Returns x /\ Py.getitem b i = Returns y
               /\ x = nth i a 0%Z /\ y = nth i b 0%Z)
  \/ (Py.getitem a i = Raises IndexError /\ Py.getitem b i = Raises IndexError).
Proof.
  intros Hlen. destruct (Nat.lt_ge_cases i (List.length a)) as [Hi|Hi].
  - left. exists (nth i a 0%Z), (nth i b 0%Z).
    repeat split; apply getitem_in_range; lia.
  - right. split; apply getitem_out_of_range; lia.
Qed.

Lemma abs_sub_sym (x y : Z) : Z.abs (x - y) = Z.abs (y - x).
Proof. lia. Qed.

Lemma compare_loop_sym (a b : list Z) (T : Z) (indices : list nat) :
  List.length a = List.length b ->
  forall acc,
    compare_loop a b T indices acc = compare_loop b a T indices acc.
Proof.
  intros Hlen. induction indices as [|i rest IH]; intros acc.
  - reflexivity.
  - cbn [compare_loop].
    destruct (getitem_same_length a b i Hlen)
      as [(x0 & y0 & -> & -> & _)|[-> ->]]; [|reflexivity].
    cbn [bind].
    destruct (getitem_same_length a b (i + 1) Hlen)
      as [(x1 & y1 & -> & -> & _)|[-> ->]]; [|reflexivity].
    cbn [bind].
    destruct (getitem_same_length a b (i + 2) Hlen)
      as [(x2 & y2 & -> & -> & _)|[-> ->]]; [|reflexivity].
    cbn [bind].
    rewrite (abs_sub_sym x0 y0), (abs_sub_sym x1 y1), (abs_sub_sym x2 y2).
    apply IH.
Qed.

(** X2. The scorer is symmetric: swapping the two vectors changes neither
    the confidence it returns nor the exception it raises. *)
Theorem compare_vectors_symmetric (a b : list Z) (T : Z) :
  compare_vectors a b T = compare_vectors b a T.
Proof.
  destruct (Nat.eq_dec (List.length a) (List.length b)) as [Heq|Hne].
  - rewrite (compare_vectors_same_length a b T Heq).
    rewrite (compare_vectors_same_length b a T (eq_sym Heq)).
    unfold Py.len. rewrite <- Heq.
    now rewrite (compare_loop_sym a b T _ Heq).
  - unfold compare_vectors, Py.len.
    destruct (Nat.eqb_spec (List.length a) (List.length b)); [tauto|].
    destruct (Nat.eqb_spec (List.length b) (List.length a)); [congruence|].
    reflexivity.
Qed.

Lemma mismatched_between_all (a b : list Z) (T : Z) (s n : nat) :
  (T < 0)%Z -> Spec.mismatched_between a b T s n = n.
Proof.
  intros HT. unfold Spec.mismatched_between.
  revert s. induction n as [|n IH]; intros s; cbn [seq filter].
  - reflexivity.
  - assert (Hs : Spec.pixel_mismatched a b T s = true).
    { unfold Spec.pixel_mismatched, Spec.max_channel_difference.
      apply Z.ltb_lt.
      pose proof (Z.abs_nonneg
                    (Spec.channel a (3 * s) - Spec.channel b (3 * s))).
      lia. }
    rewrite Hs. cbn [List.length]. now rewrite IH.
Qed.

(** X3. A negative tolerance rejects every pixel: on two fingerprints of
    [N] pixels each, [N] not zero, the confidence is 0.0, even when a
    fingerprint is scored against itself. *)
Theorem compare_vectors_negative_tolerance (A B : list Z) (T : Z) (N : nat) :
  0 < N -> List.length A = 3 * N -> List.length B = 3 * N -> (T < 0)%Z ->
  compare_vectors A B T = Returns 0%Qc.
Proof.
  intros HN HA HB HT.
  rewrite (compare_vectors_fingerprints A B T N HN HA HB).
  unfold Spec.mismatched_pixel_count.
  rewrite mismatched_between_all by exact HT.
  f_equal. field. now apply float_of_nat_nonzero.
Qed.

Lemma compare_vectors_negative_tolerance_witness :
  compare_vectors [1; 2; 3]%Z [1; 2; 3]%Z (-1) = Returns 0%Qc.
Proof.
  apply (compare_vectors_negative_tolerance [1; 2; 3]%Z [1; 2; 3]%Z (-1) 1);
    [lia | reflexivity | reflexivity | lia].
Defined.

Lemma Returns_inj (A : Type) (x y : A) : Returns x = Returns y -> x = y.
Proof.
  intros H.
  exact (f_equal (fun r => match r with Returns c => c | Raises _ => x end) H).
Qed.

Lemma float_of_nat_inj (m n : nat) :
  Py.float_of_nat m = Py.float_of_nat n -> m = n.
Proof.
  unfold Py.float_of_nat. intros H. apply float_of_Z_inj in H. lia.
Qed.

Lemma Qc_sub_eq_self (c x : Qc) : (c - x = c -> x = 0)%Qc.
Proof.
  intros H. transitivity (c - (c - x))%Qc; [ring|]. rewrite H. ring.
Qed.

Lemma Qc_sub_eq_zero (c x : Qc) : (c - x = 0 -> x = c)%Qc.
Proof.
  intros H. transitivity (c - (c - x))%Qc; [ring|]. rewrite H. ring.
Qed.

Lemma Qc_share_solve (m n c y : Qc) :
  n <> 0%Qc -> c <> 0%Qc -> (m / n * c = y -> m = y * n / c)%Qc.
Proof.
  intros Hn Hc H. rewrite <- H. field. now split.
Qed.

(** X4. On two fingerprints of [N] pixels each, [N] not zero, the
    confidence is 100.0 exactly when no pixel is mismatched, and 0.0 exactly
    when every pixel is. *)
Theorem compare_vectors_extremes (A B : list Z) (T : Z) (N : nat) :
  0 < N -> List.length A = 3 * N -> List.length B = 3 * N ->
  (compare_vectors A B T = Returns (Py.float_of_Z 100)
   <-> Spec.mismatched_pixel_count A B T N = 0)
  /\ (compare_vectors A B T = Returns 0%Qc
      <-> Spec.mismatched_pixel_count A B T N = N).
Proof.
  intros HN HA HB.
  rewrite (compare_vectors_fingerprints A B T N HN HA HB).
  pose proof (float_of_nat_nonzero N HN) as Hnz.
  assert (H100 : Py.float_of_Z 100 <> 0%Qc)
    by (apply float_of_Z_nonzero; discriminate).
  set (M := Spec.mismatched_pixel_count A B T N).
  split; split.
  - intros H. apply Returns_inj, Qc_sub_eq_self in H.
    apply (Qc_share_solve _ _ _ _ Hnz H100) in H.
    apply float_of_nat_inj. rewrite H.
    change (Py.float_of_nat 0) with 0%Qc. field. exact H100.
  - intros HM. rewrite HM. apply f_equal.
    change (Py.float_of_nat 0) with 0%Qc. field. exact Hnz.
  - intros H. apply Returns_inj, Qc_sub_eq_zero in H.
    apply (Qc_share_solve _ _ _ _ Hnz H100) in H.
    apply float_of_nat_inj. rewrite H. field. exact H100.
  - intros HM. rewrite HM. apply f_equal. field. exact Hnz.
Qed.

Lemma compare_vectors_extremes_witness :
  (compare_vectors [1; 2; 3]%Z [1; 2; 30]%Z 5 = Returns (Py.float_of_Z 100)
   <-> Spec.mismatched_pixel_count [1; 2; 3]%Z [1; 2; 30]%Z 5 1 = 0)
  /\ (compare_vectors [1; 2; 3]%Z [1; 2; 30]%Z 5 = Returns 0%Qc
      <-> Spec.mismatched_pixel_count [1; 2; 3]%Z [1; 2; 30]%Z 5 1 = 1).
Proof.
  apply (compare_vectors_extremes [1; 2; 3]%Z [1; 2; 30]%Z 5 1);
    [lia | reflexivity | reflexivity].
Defined.

(** ** Fingerprint extraction *)

Lemma flatten_pixels_channels (data : list (Z * Z * Z)) (i : nat) (r g b : Z) :
  nth_error data i = Some (r, g, b) ->
  nth_error (flatten_pixels data) (3 * i) = Some r
  /\ nth_error (flatten_pixels data) (3 * i + 1) = Some g
  /\ nth_error (flatten_pixels data) (3 * i + 2) = Some b.
Proof.
  revert i. induction data as [|[[r0 g0] b0] data IH]; intros i Hi.
  - destruct i; discriminate Hi.
  - destruct i as [|i].
    + injection Hi as -> -> ->. repeat split.
    + cbn [nth_error] in Hi. destruct (IH i Hi) as (Hr & Hg & Hb).
      unfold flatten_pixels in *. cbn [flat_map app].
      replace (3 * S i) with (S (S (S (3 * i)))) by lia.
      cbn [Nat.add nth_error]. repeat split; assumption.
Qed.

(** X5. [get_feature_vector] never raises.  On an image that the codec
    decodes it prints nothing and returns the fingerprint: three channels
    per pixel, the red, green and blue of pixel [i] at the indices [3i],
    [3i+1] and [3i+2].  On an image that the codec rejects it returns [None]
    and prints one error line. *)
Theorem get_feature_vector_fingerprint
        (env : environment) (file_path : string) :
  exists (log : list output) (vector : option (list Z)),
    get_feature_vector env file_path = (log, Returns vector)
    /\ match resized_pixels env file_path with
       | Returns data =>
           log = []
           /\ exists v,
               vector = Some v
               /\ List.length v = 3 * List.length data
               /\ forall i r g b,
                   nth_error data i = Some (r, g, b) ->
                   nth_error v (3 * i) = Some r
                   /\ nth_error v (3 * i + 1) = Some g
                   /\ nth_error v (3 * i + 2) = Some b
       | Raises e =>
           vector = None
           /\ log = [match e with
                     | FileNotFoundError => ErrorFileNotFound file_path
                     | _ => ErrorProcessingImage file_path e
                     end]
       end.
Proof.
  unfold get_feature_vector.
  destruct (resized_pixels env file_path) as [data|e].
  - exists [], (Some (flatten_pixels data)). split; [reflexivity|].
    split; [reflexivity|]. exists (flatten_pixels data).
    split; [reflexivity|]. split; [apply flatten_pixels_length|].
    intros i r g b. apply flatten_pixels_channels.
  - destruct e; eexists; exists None; (split; [reflexivity|]); now split.
Qed.

(** ** The matcher *)

(** X6. A run of the matcher never raises, whatever the environment, the
    input and the vectors of the catalogue.  It gives up, printing
    "Comparison failed" as its last line, exactly when the input does not
    decode to at least one pixel. *)
Theorem run_comparison_logic_never_raises
        (env : environment) (input_path : string)
        (index_data : Py.dict (list Z)) :
  exists (log : list output) (outcome : option main.comparison),
    main.run_comparison_logic env input_path index_data
    = (log, Returns outcome)
    /\ (outcome = None
        <-> forall data, resized_pixels env input_path = Returns data ->
                         data = [])
    /\ (outcome = None ->
        exists pre, log = pre ++ [ComparisonFailed]
                    /\ Forall (fun o => Spec.is_decode_error o = true) pre).
Proof.
  destruct (resized_pixels env input_path) as [data|e] eqn:Hpix.
  - destruct data as [|px data].
    + exists [ComparisonFailed], None.
      unfold main.run_comparison_logic, get_feature_vector.
      rewrite Hpix. split; [reflexivity|]. split.
      * split; [|reflexivity]. intros _ data H. now injection H as <-.
      * intros _. exists []. split; [reflexivity | constructor].
    + destruct (run_comparison_logic_spec env input_path index_data
                  (px :: data) Hpix ltac:(discriminate))
        as (scored & _ & Hrun).
      destruct (io_outcome _ _ _ Hrun) as [log Hlog].
      exists log. eexists. split; [exact Hlog|]. split.
      * split; [discriminate|].
        intros H. specialize (H _ eq_refl). discriminate H.
      * discriminate.
  - pose proof (get_feature_vector_cases env input_path) as Hgfv.
    rewrite Hpix in Hgfv. destruct Hgfv as (o & Ho & Hgfv).
    exists [o; ComparisonFailed], None.
    unfold main.run_comparison_logic. rewrite Hgfv.
    split; [reflexivity|]. split.
    + split; [|reflexivity]. intros _ data H. discriminate H.
    + intros _. exists [o]. split; [reflexivity|].
      constructor; [exact Ho | constructor].
Qed.

Lemma filter_head_split (A : Type) (p : A -> bool) (l : list A)
      (x : A) (t : list A) :
  filter p l = x :: t ->
  exists pre post,
    l = pre ++ x :: post /\ Forall (fun y => p y = false) pre.
Proof.
  induction l as [|y l IH]; cbn [filter]; intros H; [discriminate H|].
  destruct (p y) eqn:Hy.
  - injection H as -> _. exists [], l. split; [reflexivity | constructor].
  - destruct (IH H) as (pre & post & -> & Hpre).
    exists (y :: pre), post. split; [reflexivity | now constructor].
Qed.

(** X7. On a query that decodes and a catalogue that is not empty, the
    best match is an entry of the highest confidence, and among the entries
    of that confidence it is the one the catalogue enumerates first: every
    entry in front of it scores strictly lower, every entry behind it scores
    at most as high. *)
Theorem run_comparison_logic_best_match
        (env : environment) (input_path : string)
        (index_data : Py.dict (list Z)) (data : list (Z * Z * Z)) :
  resized_pixels env input_path = Returns data -> data <> [] ->
  index_data <> [] ->
  exists (log : list output) (ranking : list main.match_result)
         (best : main.match_result) (pre post : list main.match_result),
    main.run_comparison_logic env input_path index_data
    = (log, Returns (Some {| main.match_results := ranking;
                             main.best_match := best |}))
    /\ Spec.scored (flatten_pixels data) (Py.dict_items index_data)
         (pre ++ best :: post)
    /\ Forall (fun m => (main.confidence m < main.confidence best)%Qc) pre
    /\ Forall (fun m => (main.confidence m <= main.confidence best)%Qc) post.
Proof.
  intros Hpix Hdata Hindex.
  destruct (run_comparison_logic_spec env input_path index_data data
              Hpix Hdata) as (scored & Hscored & Hrun).
  destruct (io_outcome _ _ _ Hrun) as [log Hlog].
  pose proof (sort_reverse_perm _ main.confidence scored) as Hperm.
  pose proof (sort_reverse_sorted _ main.confidence scored) as Hsorted.
  pose proof (sort_reverse_stable _ main.confidence) as Hstable.
  destruct (Py.sort_reverse main.confidence scored) as [|best rest] eqn:Hsort.
  - apply Permutation_sym, Permutation_nil in Hperm. subst scored.
    inversion Hscored as [Hnil|]. unfold Py.dict_items in Hnil.
    now elim Hindex.
  - specialize (Hstable (main.confidence best) scored).
    rewrite Hsort in Hstable. cbn [filter] in Hstable.
    unfold Spec.same_key at 1 in Hstable.
    rewrite Qc_eq_bool_refl in Hstable.
    symmetry in Hstable.
    destruct (filter_head_split _ _ _ _ _ Hstable)
      as (pre & post & -> & Hpre).
    exists log, (best :: rest), best, pre, post.
    split; [exact Hlog|]. split; [exact Hscored|].
    assert (Hall : Forall (fun m => (main.confidence m
                                     <= main.confidence best)%Qc)
                     (pre ++ best :: post)).
    { apply (Permutation_Forall (Permutation_sym Hperm)).
      inversion Hsorted as [|? ? _ Hrest]; subst.
      constructor; [apply Qcle_refl | exact Hrest]. }
    apply Forall_app in Hall as [Hall_pre Hall_post].
    split.
    + rewrite Forall_forall in *. intros m Hm.
      destruct (Qcle_lt_or_eq _ _ (Hall_pre m Hm)) as [Hlt|Heq];
        [exact Hlt|].
      specialize (Hpre m Hm). unfold Spec.same_key in Hpre.
      rewrite Heq, Qc_eq_bool_refl in Hpre. discriminate Hpre.
    + now inversion Hall_post.
Qed.

Lemma run_comparison_logic_best_match_witness :
  exists (log : list output) (ranking : list main.match_result)
         (best : main.match_result) (pre post : list main.match_result),
    main.run_comparison_logic same_stem_env "query.png" tie_catalogue
    = (log, Returns (Some {| main.match_results := ranking;
                             main.best_match := best |}))
    /\ Spec.scored (flatten_pixels [(2, 2, 2)%Z]) (Py.dict_items tie_catalogue)
         (pre ++ best :: post)
    /\ Forall (fun m => (main.confidence m < main.confidence best)%Qc) pre
    /\ Forall (fun m => (main.confidence m <= main.confidence best)%Qc) post.
Proof.
  apply (run_comparison_logic_best_match same_stem_env "query.png"
           tie_catalogue [(2, 2, 2)%Z]).
  - reflexivity.
  - discriminate.
  - discriminate.
Defined.

(** *** The printed report *)








(** ** Batch indexing *)

Lemma io_eta (A : Type) (m : io A) : (let (log, r) := m in (log, r)) = m.
Proof. now destruct m. Qed.

(** One turn of the scan. *)
Lemma index_loop_cons (env : environment) (filename : string)
      (rest : list string) (index_data : Py.dict (list Z)) (new_count : nat) :
  index_loop env (filename :: rest) index_data new_count
  = match Spec.indexed_vector env filename with
    | Some v =>
        index_loop env rest
          (Py.dict_set index_data (Spec.display_name filename) v)
          (S new_count)
    | None =>
        let (log, r) := index_loop env rest index_data new_count in
        (Scan.error_line env filename ++ log, r)
    end.
Proof.
  cbn [index_loop].
  change (fst (Py.splitext filename)) with (Spec.display_name filename).
  fold (Spec.recognized filename).
  unfold Spec.indexed_vector, Scan.error_line, get_feature_vector.
  destruct (Spec.recognized filename).
  - destruct (resized_pixels env (Py.path_join IMAGE_DIR filename))
      as [data|e].
    + unfold io_bind, ret.
      destruct (flatten_pixels data); cbn [app]; now rewrite io_eta.
    + destruct e; unfold io_bind, print, ret; cbn [app];
        now destruct (index_loop env rest index_data new_count).
  - cbn [app]. now rewrite io_eta.
Qed.

Lemma dict_get_none (V : Type) (d : Py.dict V) (k : string) :
  Py.dict_get d k = None <-> ~ In k (Scan.keys d).
Proof.
  unfold Scan.keys.
  induction d as [|[k0 v0] d IH]; cbn [Py.dict_get map fst In].
  - tauto.
  - destruct (String.eqb_spec k0 k) as [->|Hne].
    + split; [discriminate | intros H; elim H; now left].
    + rewrite IH. tauto.
Qed.

(** Assignment to a present key keeps the keys; to an absent key it
    appends the key. *)
Lemma dict_set_keys_list (V : Type) (d : Py.dict V) (k : string) (v : V) :
  Scan.keys (Py.dict_set d k v)
  = if Py.dict_contains d k then Scan.keys d else Scan.keys d ++ [k].
Proof.
  unfold Scan.keys, Py.dict_contains.
  induction d as [|[k0 v0] d IH]; cbn [Py.dict_set Py.dict_get map fst app].
  - reflexivity.
  - destruct (String.eqb_spec k0 k) as [->|Hne]; cbn [map fst].
    + reflexivity.
    + rewrite IH. now destruct (Py.dict_get d k).
Qed.

(** Two dictionaries of distinct keys with the same keys in the same order
    and the same lookups are equal. *)
Lemma dict_ext (V : Type) (d1 d2 : Py.dict V) :
  Scan.keys d1 = Scan.keys d2 -> NoDup (Scan.keys d1) ->
  (forall k, Py.dict_get d1 k = Py.dict_get d2 k) ->
  d1 = d2.
Proof.
  unfold Scan.keys.
  revert d2. induction d1 as [|[k1 v1] d1 IH]; intros [|[k2 v2] d2];
    cbn [map fst]; intros Hkeys Hnd Hget; try discriminate Hkeys.
  - reflexivity.
  - injection Hkeys as -> Hkeys.
    inversion Hnd as [|? ? Hnotin Hnd']; subst.
    pose proof (Hget k2) as Hk. cbn [Py.dict_get] in Hk.
    rewrite String.eqb_refl in Hk. injection Hk as ->.
    f_equal. apply IH; [exact Hkeys | exact Hnd'|].
    intros k. specialize (Hget k). cbn [Py.dict_get] in Hget.
    destruct (String.eqb_spec k2 k) as [->|Hne]; [|exact Hget].
    transitivity (@None V).
    + now apply dict_get_none.
    + symmetry. apply dict_get_none. unfold Scan.keys.
      now rewrite <- Hkeys.
Qed.

(** The keys after the scan: those of before, in place, then the keys the
    scan adds, each the display name of a file it indexes. *)
Lemma index_loop_keys (env : environment) (listing : list string) :
  forall (index_data : Py.dict (list Z)) (new_count : nat),
  exists (log : list output) (n : nat) (index_data' : Py.dict (list Z))
         (added : list string),
    index_loop env listing index_data new_count
    = (log, Returns (n, index_data'))
    /\ Scan.keys index_data' = Scan.keys index_data ++ added
    /\ Forall (fun k => exists f v,
                   In f listing /\ Spec.indexed_vector env f = Some v
                   /\ Spec.display_name f = k) added.
Proof.
  induction listing as [|f rest IH]; intros index_data new_count.
  - exists [], new_count, index_data, []. cbn. rewrite app_nil_r.
    repeat split. constructor.
  - rewrite index_loop_cons.
    destruct (Spec.indexed_vector env f) as [v|] eqn:Hiv.
    + destruct (IH (Py.dict_set index_data (Spec.display_name f) v)
                   (S new_count))
        as (log & n & d' & added & Hrun & Hkeys & Hadded).
      rewrite dict_set_keys_list in Hkeys.
      assert (Hrest : Forall (fun k => exists f0 v0,
                  In f0 (f :: rest) /\ Spec.indexed_vector env f0 = Some v0
                  /\ Spec.display_name f0 = k) added).
      { eapply Forall_impl; [|exact Hadded].
        intros k (f0 & v0 & Hin & H1 & H2). exists f0, v0.
        split; [now right | now split]. }
      destruct (Py.dict_contains index_data (Spec.display_name f)).
      * exists log, n, d', added. repeat split; assumption.
      * exists log, n, d', (Spec.display_name f :: added).
        split; [exact Hrun|]. split.
        -- rewrite Hkeys, <- app_assoc. reflexivity.
        -- constructor; [|exact Hrest].
           exists f, v. split; [now left | now split].
    + destruct (IH index_data new_count)
        as (log & n & d' & added & Hrun & Hkeys & Hadded).
      rewrite Hrun. exists (Scan.error_line env f ++ log), n, d', added.
      split; [reflexivity|]. split; [exact Hkeys|].
      eapply Forall_impl; [|exact Hadded].
      intros k (f0 & v0 & Hin & H1 & H2). exists f0, v0.
      split; [now right | now split].
Qed.

Lemma index_loop_log (env : environment) (listing : list string) :
  forall (index_data : Py.dict (list Z)) (new_count : nat),
    fst (index_loop env listing index_data new_count)
    = flat_map (Scan.error_line env) listing.
Proof.
  induction listing as [|f rest IH]; intros index_data new_count.
  - reflexivity.
  - rewrite index_loop_cons. cbn [flat_map].
    destruct (Spec.indexed_vector env f) as [v|] eqn:Hiv.
    + rewrite IH.
      assert (Hline : Scan.error_line env f = []).
      { unfold Spec.indexed_vector in Hiv. unfold Scan.error_line.
        destruct (Spec.recognized f); [|reflexivity].
        destruct (resized_pixels env (Py.path_join IMAGE_DIR f));
          [reflexivity | discriminate Hiv]. }
      now rewrite Hline.
    + specialize (IH index_data new_count).
      destruct (index_loop env rest index_data new_count) as [log r].
      cbn [fst] in *. now rewrite IH.
Qed.

Lemma index_all_images_run (env : environment) (listing : list string)
      (index_data : Py.dict (list Z)) :
  image_dir env = Some listing ->
  index_all_images env index_data
  = (StartingIndexing :: fst (index_loop env listing index_data 0),
     snd (index_loop env listing index_data 0)).
Proof.
  intros Hdir. unfold index_all_images. rewrite Hdir.
  unfold io_bind, print.
  now destruct (index_loop env listing index_data 0) as [log r].
Qed.

(** X9. The scan only adds and overwrites.  The keys of before keep their
    places and the keys it adds come behind them; no entry is removed, even
    if its file is gone from the directory; and a key that no indexed file
    of the listing has keeps its fingerprint. *)
Theorem index_all_images_only_adds
        (env : environment) (listing : list string)
        (index_data : Py.dict (list Z)) :
  image_dir env = Some listing ->
  exists (log : list output) (n : nat) (index_data' : Py.dict (list Z))
         (added : list string),
    index_all_images env index_data = (log, Returns (n, index_data'))
    /\ Scan.keys index_data' = Scan.keys index_data ++ added
    /\ (forall k, Py.dict_contains index_data k = true ->
                  Py.dict_contains index_data' k = true)
    /\ (forall k,
           (forall f, In f listing -> Spec.display_name f = k ->
                      Spec.indexed_vector env f = None) ->
           Py.dict_get index_data' k = Py.dict_get index_data k).
Proof.
  intros Hdir. rewrite (index_all_images_run env listing index_data Hdir).
  destruct (index_loop_keys env listing index_data 0)
    as (log & n & d' & added & Hrun & Hkeys & _).
  destruct (index_loop_spec env listing index_data 0)
    as (log2 & d2 & Hrun2 & Hget & _).
  rewrite Hrun in Hrun2. injection Hrun2 as _ _ <-.
  rewrite Hrun. cbn [fst snd].
  exists (StartingIndexing :: log), n, d', added.
  split; [reflexivity|]. split; [exact Hkeys|]. split.
  - intros k. unfold Py.dict_contains. rewrite Hget.
    destruct (Spec.last_indexed env listing k); [reflexivity|].
    now destruct (Py.dict_get index_data k).
  - intros k Hk. rewrite Hget.
    now rewrite (last_indexed_none env listing k Hk).
Qed.

Lemma index_all_images_only_adds_witness :
  exists (log : list output) (n : nat) (index_data' : Py.dict (list Z))
         (added : list string),
    index_all_images three_files_env [("old"%string, [7; 7; 7]%Z)]
    = (log, Returns (n, index_data'))
    /\ Scan.keys index_data' = Scan.keys [("old"%string, [7; 7; 7]%Z)] ++ added
    /\ (forall k, Py.dict_contains [("old"%string, [7; 7; 7]%Z)] k = true ->
                  Py.dict_contains index_data' k = true)
    /\ (forall k,
           (forall f, In f ["1.png"; "2.png"; "3.png"]%string ->
                      Spec.display_name f = k ->
                      Spec.indexed_vector three_files_env f = None) ->
           Py.dict_get index_data' k
           = Py.dict_get [("old"%string, [7; 7; 7]%Z)] k).
Proof.
  apply (index_all_images_only_adds three_files_env
           ["1.png"; "2.png"; "3.png"]%string [("old"%string, [7; 7; 7]%Z)]).
  reflexivity.
Defined.

(** X10. A second scan of an unchanged directory changes nothing: on a
    catalogue of distinct keys it prints the same lines, returns the same
    count and leaves the catalogue of the first scan as it is. *)
Theorem index_all_images_idempotent
        (env : environment) (listing : list string)
        (index_data : Py.dict (list Z)) :
  image_dir env = Some listing -> NoDup (Scan.keys index_data) ->
  exists (log : list output) (n : nat) (index_data' : Py.dict (list Z)),
    index_all_images env index_data = (log, Returns (n, index_data'))
    /\ index_all_images env index_data' = (log, Returns (n, index_data')).
Proof.
  intros Hdir Hnd.
  rewrite (index_all_images_run env listing index_data Hdir).
  destruct (index_loop_spec env listing index_data 0)
    as (log & d' & Hrun & Hget & _ & _ & Hnd').
  specialize (Hnd' Hnd).
  pose proof (index_loop_log env listing index_data 0) as Hlog.
  rewrite Hrun in Hlog. cbn [fst] in Hlog.
  rewrite Hrun. cbn [fst snd].
  exists (StartingIndexing :: log), (0 + Spec.indexed_count env listing), d'.
  split; [reflexivity|].
  rewrite (index_all_images_run env listing d' Hdir).
  destruct (index_loop_spec env listing d' 0)
    as (log2 & d2 & Hrun2 & Hget2 & _ & _ & Hnd2).
  specialize (Hnd2 Hnd').
  pose proof (index_loop_log env listing d' 0) as Hlog2.
  rewrite Hrun2 in Hlog2. cbn [fst] in Hlog2.
  destruct (index_loop_keys env listing d' 0)
    as (log3 & n3 & d3 & added & Hrun3 & Hkeys & Hadded).
  rewrite Hrun2 in Hrun3. injection Hrun3 as _ _ <-.
  rewrite Hrun2. cbn [fst snd].
  assert (Hnone : added = []).
  { destruct added as [|k added]; [reflexivity|]. exfalso.
    inversion Hadded as [|? ? (f & v & Hin & Hiv & Hk) _]; subst.
    destruct (last_indexed_some env listing f v Hin Hiv) as [v' Hv'].
    assert (Hink : In (Spec.display_name f) (Scan.keys d')).
    { destruct (in_dec string_dec (Spec.display_name f) (Scan.keys d'))
        as [Hin'|Hnotin]; [exact Hin'|].
      apply dict_get_none in Hnotin. rewrite Hget, Hv' in Hnotin.
      discriminate Hnotin. }
    unfold Scan.keys in Hnd2, Hkeys. rewrite Hkeys in Hnd2.
    apply NoDup_app_remove_l in Hnd2 as Hdup.
    apply in_split in Hink as (l1 & l2 & Hsplit).
    unfold Scan.keys in Hsplit. rewrite Hsplit in Hnd2.
    rewrite <- app_assoc in Hnd2. cbn [app] in Hnd2.
    apply NoDup_remove_2 in Hnd2. apply Hnd2.
    rewrite !in_app_iff. right. right. now left. }
  subst added. rewrite app_nil_r in Hkeys.
  assert (Heq : d2 = d').
  { apply dict_ext; [exact Hkeys | exact Hnd2|].
    intros k. rewrite Hget2, Hget.
    now destruct (Spec.last_indexed env listing k). }
  subst d2. now rewrite Hlog2, <- Hlog.
Qed.

Lemma index_all_images_idempotent_witness :
  exists (log : list output) (n : nat) (index_data' : Py.dict (list Z)),
    index_all_images three_files_env [("old"%string, [7; 7; 7]%Z)]
    = (log, Returns (n, index_data'))
    /\ index_all_images three_files_env index_data'
       = (log, Returns (n, index_data')).
Proof.
  apply (index_all_images_idempotent three_files_env
           ["1.png"; "2.png"; "3.png"]%string [("old"%string, [7; 7; 7]%Z)]).
  - reflexivity.
  - simpl. constructor; [intros H; simpl in H; contradiction | constructor].
Defined.

Lemma index_loop_filter (env : environment) (listing : list string) :
  forall (index_data : Py.dict (list Z)) (new_count : nat),
    index_loop env listing index_data new_count
    = index_loop env (filter Spec.recognized listing) index_data new_count.
Proof.
  induction listing as [|f rest IH]; intros index_data new_count.
  - reflexivity.
  - cbn [filter]. destruct (Spec.recognized f) eqn:Hrec.
    + rewrite !index_loop_cons.
      destruct (Spec.indexed_vector env f); now rewrite IH.
    + rewrite index_loop_cons.
      unfold Spec.indexed_vector, Scan.error_line. rewrite Hrec.
      cbn [app]. rewrite io_eta. apply IH.
Qed.

Lemma index_loop_ext (env1 env2 : environment) (listing : list string) :
  (forall file_path,
      resized_pixels env1 file_path = resized_pixels env2 file_path) ->
  forall (index_data : Py.dict (list Z)) (new_count : nat),
    index_loop env1 listing index_data new_count
    = index_loop env2 listing index_data new_count.
Proof.
  intros Hpix.
  induction listing as [|f rest IH]; intros index_data new_count.
  - reflexivity.
  - rewrite !index_loop_cons.
    unfold Spec.indexed_vector, Scan.error_line. rewrite Hpix.
    destruct (Spec.recognized f); [|now rewrite IH].
    destruct (resized_pixels env2 (Py.path_join IMAGE_DIR f)) as [data|e];
      [|now rewrite IH].
    destruct (flatten_pixels data); now rewrite IH.
Qed.

(** X11. Files without a recognised extension do not matter to the scan:
    a directory and the same directory without them, holding the same
    images, give the same lines, the same count and the same catalogue. *)
Theorem index_all_images_ignores_other_files
        (env1 env2 : environment) (listing : list string)
        (index_data : Py.dict (list Z)) :
  (forall file_path,
      resized_pixels env1 file_path = resized_pixels env2 file_path) ->
  image_dir env1 = Some listing ->
  image_dir env2 = Some (filter Spec.recognized listing) ->
  index_all_images env1 index_data = index_all_images env2 index_data.
Proof.
  intros Hpix Hdir1 Hdir2.
  rewrite (index_all_images_run env1 _ index_data Hdir1).
  rewrite (index_all_images_run env2 _ index_data Hdir2).
  rewrite (index_loop_ext env1 env2 listing Hpix).
  now rewrite (index_loop_filter env2 listing).
Qed.

Lemma index_all_images_ignores_other_files_witness :
  index_all_images mixed_files_env [] = index_all_images three_files_env [].
Proof.
  apply (index_all_images_ignores_other_files mixed_files_env three_files_env
           ["notes.txt"; "1.png"; "2.png"; "png"; "3.png"; "a.gif"]%string []).
  - intros file_path. reflexivity.
  - reflexivity.
  - reflexivity.
Defined.

(** *** Keys *)

Section Splitext.

Local Open Scope string_scope.

Lemma splitext_scan_fuel (p : string) (i : nat) :
  Py.splitext_scan p i 0 = false.
Proof. reflexivity. Qed.

Lemma slice_join (p : string) (n : nat) :
  Py.slice_to p n ++ Py.slice_from p n = p.
Proof.
  unfold Py.slice_to, Py.slice_from.
  revert n. induction p as [|c p IH]; intros n.
  - now destruct n.
  - destruct n as [|n].
    + cbn [substring append String.length Nat.sub].
      now rewrite substring_all.
    + cbn [substring append String.length Nat.sub]. now rewrite IH.
Qed.

(** [splitext] cuts a path in two. *)
Lemma splitext_join (p : string) :
  fst (Py.splitext p) ++ snd (Py.splitext p) = p.
Proof.
  assert (Hnil : forall s : string, s ++ "" = s).
  { induction s as [|c s IH]; cbn; [reflexivity | now rewrite IH]. }
  unfold Py.splitext.
  destruct (Py.str_rfind p "." >? Py.str_rfind p "/")%Z; [|apply Hnil].
  destruct (Py.splitext_scan p _ _); cbn [fst snd];
    [apply slice_join | apply Hnil].
Qed.

(** The root that [splitext] leaves of a path that is not empty is not
    empty. *)
Lemma splitext_root_nonempty (p : string) :
  p <> "" -> fst (Py.splitext p) <> "".
Proof.
  intros Hp. unfold Py.splitext.
  destruct (Py.str_rfind p "." >? Py.str_rfind p "/")%Z; [|exact Hp].
  destruct (Z.to_nat (Py.str_rfind p ".")
            - Z.to_nat (Py.str_rfind p "/" + 1)) as [|fuel] eqn:Hfuel.
  - rewrite splitext_scan_fuel. exact Hp.
  - destruct (Py.splitext_scan p _ (S fuel)); [|exact Hp].
    cbn [fst]. unfold Py.slice_to.
    destruct (Z.to_nat (Py.str_rfind p ".")) as [|n]; [lia|].
    destruct p as [|c p]; [now elim Hp|]. discriminate.
Qed.

Lemma recognized_nonempty (filename : string) :
  Spec.recognized filename = true -> filename <> "".
Proof.
  intros H ->. discriminate H.
Qed.

End Splitext.

Lemma index_loop_keys_nonempty (env : environment) (listing : list string)
      (index_data : Py.dict (list Z)) (k : string) :
  In k (Scan.keys (match snd (index_loop env listing index_data 0) with
                   | Returns (_, d) => d
                   | Raises _ => []
                   end)) ->
  In k (Scan.keys index_data)
  \/ exists f, In f listing /\ Spec.recognized f = true
               /\ k = Spec.display_name f.
Proof.
  destruct (index_loop_keys env listing index_data 0)
    as (log & n & d' & added & Hrun & Hkeys & Hadded).
  rewrite Hrun. cbn [snd]. rewrite Hkeys, in_app_iff.
  intros [H|H]; [now left|right].
  rewrite Forall_forall in Hadded.
  destruct (Hadded k H) as (f & v & Hin & Hiv & Hk).
  exists f. split; [exact Hin|]. split; [|now symmetry].
  unfold Spec.indexed_vector in Hiv.
  now destruct (Spec.recognized f).
Qed.

(** X12. Names stay non-empty: the key the scan gives a recognised file,
    its name without the extension, is a non-empty front part of the name,
    so a catalogue without an empty key has none after the scan. *)
Theorem index_all_images_keys_nonempty
        (env : environment) (listing : list string)
        (index_data : Py.dict (list Z)) :
  image_dir env = Some listing ->
  ~ In ""%string (Scan.keys index_data) ->
  (forall f, Spec.recognized f = true ->
             Spec.display_name f <> ""%string
             /\ exists ext, f = (Spec.display_name f ++ ext)%string)
  /\ exists (log : list output) (n : nat) (index_data' : Py.dict (list Z)),
       index_all_images env index_data = (log, Returns (n, index_data'))
       /\ ~ In ""%string (Scan.keys index_data').
Proof.
  intros Hdir Hkeys.
  assert (Hname : forall f, Spec.recognized f = true ->
             Spec.display_name f <> ""%string
             /\ exists ext, f = (Spec.display_name f ++ ext)%string).
  { intros f Hf. split.
    - apply splitext_root_nonempty. now apply recognized_nonempty.
    - exists (snd (Py.splitext f)). symmetry. apply splitext_join. }
  split; [exact Hname|].
  rewrite (index_all_images_run env listing index_data Hdir).
  pose proof (index_loop_keys_nonempty env listing index_data ""%string) as H.
  destruct (index_loop_keys env listing index_data 0)
    as (log & n & d' & added & Hrun & _).
  rewrite Hrun in *. cbn [fst snd] in *.
  exists (StartingIndexing :: log), n, d'. split; [reflexivity|].
  intros Hin. destruct (H Hin) as [H0|(f & _ & Hrec & Hk)].
  - now apply Hkeys.
  - destruct (Hname f Hrec) as [Hne _]. now apply Hne.
Qed.

Lemma index_all_images_keys_nonempty_witness :
  (forall f, Spec.recognized f = true ->
             Spec.display_name f <> ""%string
             /\ exists ext, f = (Spec.display_name f ++ ext)%string)
  /\ exists (log : list output) (n : nat) (index_data' : Py.dict (list Z)),
       index_all_images three_files_env [("old"%string, [7; 7; 7]%Z)]
       = (log, Returns (n, index_data'))
       /\ ~ In ""%string (Scan.keys index_data').
Proof.
  apply (index_all_images_keys_nonempty three_files_env
           ["1.png"; "2.png"; "3.png"]%string).
  - reflexivity.
  - simpl. intros [H|H]; [discriminate H | contradiction].
Defined.

(** ** The index manager *)

Import manager.

Lemma dict_del_get (V : Type) (d : Py.dict V) (k k' : string) :
  NoDup (Scan.keys d) ->
  Py.dict_get (dict_del d k) k'
  = if String.eqb k k' then None else Py.dict_get d k'.
Proof.
  unfold Scan.keys.
  induction d as [|[k0 v0] d IH]; cbn [dict_del Py.dict_get map fst];
    intros Hnd.
  - now destruct (String.eqb k k').
  - inversion Hnd as [|? ? Hnotin Hnd']; subst.
    destruct (String.eqb_spec k0 k) as [->|Hk0].
    + destruct (String.eqb_spec k k') as [->|Hkk'].
      * now apply dict_get_none.
      * reflexivity.
    + cbn [Py.dict_get]. rewrite (IH Hnd').
      destruct (String.eqb_spec k0 k') as [->|_]; [|reflexivity].
      destruct (String.eqb_spec k k'); [congruence | reflexivity].
Qed.

Lemma dict_del_keys (V : Type) (d : Py.dict V) (k : string) :
  NoDup (Scan.keys d) ->
  Scan.keys (dict_del d k)
  = filter (fun k' => negb (String.eqb k' k)) (Scan.keys d).
Proof.
  unfold Scan.keys.
  induction d as [|[k0 v0] d IH]; cbn [dict_del map fst filter]; intros Hnd.
  - reflexivity.
  - inversion Hnd as [|? ? Hnotin Hnd']; subst.
    destruct (String.eqb_spec k0 k) as [->|Hk0]; cbn [negb map fst].
    + symmetry. apply forallb_filter_id. apply forallb_forall.
      intros k' Hin. apply negb_true_iff, String.eqb_neq.
      intros ->. now apply Hnotin.
    + now rewrite (IH Hnd').
Qed.

Lemma dict_del_set_fresh (V : Type) (d : Py.dict V) (k : string) (v : V) :
  Py.dict_contains d k = false -> dict_del (Py.dict_set d k v) k = d.
Proof.
  unfold Py.dict_contains.
  induction d as [|[k0 v0] d IH]; cbn [Py.dict_set dict_del Py.dict_get].
  - intros _. now rewrite String.eqb_refl.
  - destruct (String.eqb_spec k0 k) as [->|Hk0]; [discriminate|].
    intros H. cbn [dict_del].
    destruct (String.eqb_spec k0 k); [contradiction|].
    now rewrite (IH H).
Qed.

Lemma index_all_images_returns (env : environment)
      (index_data : Py.dict (list Z)) :
  exists log n index_data',
    index_all_images env index_data = (log, Returns (n, index_data')).
Proof.
  destruct (image_dir env) as [listing|] eqn:Hdir.
  - rewrite (index_all_images_run env listing index_data Hdir).
    destruct (index_loop_spec env listing index_data 0)
      as (log & d' & Hrun & _).
    rewrite Hrun. now eexists _, _, _.
  - unfold index_all_images. rewrite Hdir. now eexists _, _, _.
Qed.

Lemma get_feature_vector_returns (env : environment) (file_path : string) :
  exists log vector, get_feature_vector env file_path = (log, Returns vector).
Proof.
  pose proof (get_feature_vector_cases env file_path) as H.
  destruct (resized_pixels env file_path).
  - rewrite H. now eexists _, _.
  - destruct H as (o & _ & ->). now eexists _, _.
Qed.

(** X13. Changes are saved at once: whichever of Mass Update, Add Data and
    Remove Data runs and returns, it either leaves the catalogue and the
    durable store as they were or leaves the store holding exactly the
    catalogue it returns; and an action that is cut short by an exception
    leaves the store as it was. *)
Theorem manager_changes_are_saved
        (action : Py.dict (list Z) -> session (Py.dict (list Z)))
        (index_data : Py.dict (list Z)) (c : console) :
  In action [mass_update; add_data; remove_data] ->
  match action index_data c with
  | (_, Returns index_data', c') =>
      (index_data' = index_data /\ store c' = store c)
      \/ store c' = Some (Returns index_data')
  | (_, Raises _, c') => store c' = store c
  end.
Proof.
  intros [<-|[<-|[<-|[]]]].
  - unfold mass_update, sbind, run.
    destruct (index_all_images_returns (files c) index_data)
      as (log & n & d' & ->).
    cbn. now right.
  - unfold add_data, sbind, input.
    destruct (stdin c) as [|[file_path|e] rest]; [reflexivity| |reflexivity].
    cbn [stdin]. destruct rest as [|[name|e] rest];
      [reflexivity| |reflexivity].
    cbn [stdin files]. unfold run. cbn [files].
    destruct (get_feature_vector_returns (files c) file_path)
      as (log & vector & ->).
    destruct vector as [[|x v]|]; cbn; auto.
  - unfold remove_data.
    destruct index_data as [|entry index_data]; [cbn; auto|].
    unfold sbind, input.
    destruct (stdin c) as [|[name|e] rest]; [reflexivity| |reflexivity].
    destruct (Py.dict_contains (entry :: index_data) name); cbn; auto.
Qed.

Lemma manager_changes_are_saved_witness :
  match remove_data [("a"%string, [1; 2; 3]%Z); ("b"%string, [4; 5; 6]%Z)]
          {| files := same_stem_env; path_exists := fun _ => true;
             stdin := [Returns "a"%string] |} with
  | (_, Returns index_data', c') =>
      (index_data' = [("a"%string, [1; 2; 3]%Z); ("b"%string, [4; 5; 6]%Z)]
       /\ store c'
          = store {| files := same_stem_env; path_exists := fun _ => true;
                     stdin := [Returns "a"%string] |})
      \/ store c' = Some (Returns index_data')
  | (_, Raises _, c') =>
      store c'
      = store {| files := same_stem_env; path_exists := fun _ => true;
                 stdin := [Returns "a"%string] |}
  end.
Proof.
  apply (manager_changes_are_saved remove_data).
  simpl. auto.
Defined.

(** X14. Add Data reads the path and then the display name.  If the image
    decodes to at least one pixel, the catalogue it returns holds the
    fingerprint under that name, whatever the name is (the empty name is
    accepted), every other name keeps its fingerprint, and the store holds
    the new catalogue; otherwise catalogue and store stay as they were. *)
Theorem add_data_upserts
        (index_data : Py.dict (list Z)) (c : console)
        (file_path display_name : string) (rest : list (result string)) :
  stdin c = Returns file_path :: Returns display_name :: rest ->
  exists (log : list line) (index_data' : Py.dict (list Z)) (c' : console),
    add_data index_data c = (log, Returns index_data', c')
    /\ stdin c' = rest
    /\ match resized_pixels (files c) file_path with
       | Returns (px :: data) =>
           index_data'
           = Py.dict_set index_data display_name (flatten_pixels (px :: data))
           /\ Py.dict_get index_data' display_name
              = Some (flatten_pixels (px :: data))
           /\ (forall k, k <> display_name ->
                         Py.dict_get index_data' k = Py.dict_get index_data k)
           /\ store c' = Some (Returns index_data')
       | _ => index_data' = index_data /\ store c' = store c
       end.
Proof.
  intros Hin. unfold add_data, sbind, input. rewrite Hin. cbn [stdin].
  unfold run. cbn [files].
  pose proof (get_feature_vector_cases (files c) file_path) as Hgfv.
  destruct (resized_pixels (files c) file_path) as [[|[[r g] b] data]|e].
  - rewrite Hgfv. cbn. eexists _, _, _. repeat split.
  - rewrite Hgfv. cbn. eexists _, _, _.
    split; [reflexivity|]. split; [reflexivity|].
    split; [reflexivity|]. split; [|split; [|reflexivity]].
    + change (r :: g :: b :: flatten_pixels data)
        with (flatten_pixels ((r, g, b) :: data)).
      now rewrite dict_get_set, String.eqb_refl.
    + intros k Hk.
      change (r :: g :: b :: flatten_pixels data)
        with (flatten_pixels ((r, g, b) :: data)).
      rewrite dict_get_set.
      destruct (String.eqb_spec display_name k); [congruence | reflexivity].
  - destruct Hgfv as (o & _ & ->). cbn. eexists _, _, _. repeat split.
Qed.

Lemma add_data_upserts_witness :
  exists (log : list line) (index_data' : Py.dict (list Z)) (c' : console),
    add_data [("a"%string, [1; 2; 3]%Z)]
      {| files := same_stem_env; path_exists := fun _ => true;
         stdin := [Returns "new.png"; Returns ""]%string |}
    = (log, Returns index_data', c')
    /\ stdin c' = []
    /\ match resized_pixels same_stem_env "new.png" with
       | Returns (px :: data) =>
           index_data'
           = Py.dict_set [("a"%string, [1; 2; 3]%Z)] ""
               (flatten_pixels (px :: data))
           /\ Py.dict_get index_data' "" = Some (flatten_pixels (px :: data))
           /\ (forall k, k <> ""%string ->
                         Py.dict_get index_data' k
                         = Py.dict_get [("a"%string, [1; 2; 3]%Z)] k)
           /\ store c' = Some (Returns index_data')
       | _ =>
           index_data' = [("a"%string, [1; 2; 3]%Z)]
           /\ store c'
              = store {| files := same_stem_env; path_exists := fun _ => true;
                         stdin := [Returns "new.png"; Returns ""]%string |}
       end.
Proof.
  apply (add_data_upserts [("a"%string, [1; 2; 3]%Z)]
           {| files := same_stem_env; path_exists := fun _ => true;
              stdin := [Returns "new.png"; Returns ""]%string |}
           "new.png" "" []).
  reflexivity.
Defined.

(** X15. Remove Data on a catalogue of distinct names.  On an empty
    catalogue it reads nothing and changes nothing.  Otherwise it reads a
    name: if the name is present, the catalogue it returns has lost that
    entry alone, the other entries keep their fingerprints and their order,
    and the store holds the new catalogue; if the name is absent, it
    reports so and catalogue and store stay as they were. *)
Theorem remove_data_removes
        (index_data : Py.dict (list Z)) (c : console)
        (name : string) (rest : list (result string)) :
  NoDup (Scan.keys index_data) ->
  stdin c = Returns name :: rest ->
  exists (log : list line) (index_data' : Py.dict (list Z)) (c' : console),
    remove_data index_data c = (log, Returns index_data', c')
    /\ match index_data with
       | [] => log = [IndexEmpty] /\ index_data' = [] /\ c' = c
       | _ :: _ =>
           stdin c' = rest
           /\ if Py.dict_contains index_data name
              then
                Py.dict_get index_data' name = None
                /\ (forall k, k <> name ->
                              Py.dict_get index_data' k
                              = Py.dict_get index_data k)
                /\ Scan.keys index_data'
                   = filter (fun k => negb (String.eqb k name))
                            (Scan.keys index_data)
                /\ store c' = Some (Returns index_data')
              else
                index_data' = index_data /\ store c' = store c
                /\ In (EntryNotFound name) log
       end.
Proof.
  intros Hnd Hin. unfold remove_data.
  destruct index_data as [|entry index_data].
  - cbn. eexists _, _, _. repeat split.
  - unfold sbind, input. rewrite Hin. cbn [stdin].
    destruct (Py.dict_contains (entry :: index_data) name) eqn:Hc.
    + eexists _, (dict_del (entry :: index_data) name), _.
      split; [reflexivity|]. split; [reflexivity|].
      split; [|split; [|split; [|reflexivity]]].
      * rewrite (dict_del_get _ (entry :: index_data) name name Hnd).
        now rewrite String.eqb_refl.
      * intros k Hk.
        rewrite (dict_del_get _ (entry :: index_data) name k Hnd).
        destruct (String.eqb_spec name k); [congruence | reflexivity].
      * exact (dict_del_keys _ (entry :: index_data) name Hnd).
    + eexists _, (entry :: index_data), _.
      split; [reflexivity|]. split; [reflexivity|].
      split; [reflexivity|]. split; [reflexivity|]. right. now left.
Qed.

Lemma remove_data_removes_witness :
  exists (log : list line) (index_data' : Py.dict (list Z)) (c' : console),
    remove_data [("a"%string, [1; 2; 3]%Z); ("b"%string, [4; 5; 6]%Z)]
      {| files := same_stem_env; path_exists := fun _ => true;
         stdin := [Returns "a"%string] |}
    = (log, Returns index_data', c')
    /\ (stdin c' = []
        /\ if Py.dict_contains
                [("a"%string, [1; 2; 3]%Z); ("b"%string, [4; 5; 6]%Z)] "a"
           then
             Py.dict_get index_data' "a" = None
             /\ (forall k, k <> "a"%string ->
                           Py.dict_get index_data' k
                           = Py.dict_get
                               [("a"%string, [1; 2; 3]%Z);
                                ("b"%string, [4; 5; 6]%Z)] k)
             /\ Scan.keys index_data'
                = filter (fun k => negb (String.eqb k "a"))
                         (Scan.keys [("a"%string, [1; 2; 3]%Z);
                                     ("b"%string, [4; 5; 6]%Z)])
             /\ store c' = Some (Returns index_data')
           else
             index_data'
             = [("a"%string, [1; 2; 3]%Z); ("b"%string, [4; 5; 6]%Z)]
             /\ store c'
                = store {| files := same_stem_env;
                           path_exists := fun _ => true;
                           stdin := [Returns "a"%string] |}
             /\ In (EntryNotFound "a") log).
Proof.
  apply (remove_data_removes
           [("a"%string, [1; 2; 3]%Z); ("b"%string, [4; 5; 6]%Z)]
           {| files := same_stem_env; path_exists := fun _ => true;
              stdin := [Returns "a"%string] |} "a" []).
  - simpl. constructor; [simpl; intros [H|H]; [discriminate H|contradiction]|].
    constructor; [intros H; simpl in H; contradiction | constructor].
  - reflexivity.
Defined.

Lemma add_data_run (index_data : Py.dict (list Z)) (c : console)
      (file_path name : string) (rest : list (result string))
      (data : list (Z * Z * Z)) :
  stdin c = Returns file_path :: Returns name :: rest ->
  resized_pixels (files c) file_path = Returns data -> data <> [] ->
  add_data index_data c
  = ([Prompted AskAddPath; Prompted AskAddName; SuccessfullyAdded name;
      SuccessfullySaved
        (Py.len (Py.dict_set index_data name (flatten_pixels data)))],
     Returns (Py.dict_set index_data name (flatten_pixels data)),
     {| files := write_index (files c)
                   (Py.dict_set index_data name (flatten_pixels data));
        path_exists := path_exists c;
        stdin := rest |}).
Proof.
  intros Hin Hpix Hdata. unfold add_data, sbind, input. rewrite Hin.
  cbn [stdin]. unfold run. cbn [files].
  pose proof (get_feature_vector_cases (files c) file_path) as Hgfv.
  rewrite Hpix in Hgfv. rewrite Hgfv.
  destruct data as [|[[r g] b] data]; [now elim Hdata|].
  reflexivity.
Qed.

Lemma remove_data_run (index_data : Py.dict (list Z)) (c : console)
      (name : string) (rest : list (result string)) :
  stdin c = Returns name :: rest ->
  Py.dict_contains index_data name = true ->
  remove_data index_data c
  = ([Prompted AskRemoveName; SuccessfullyRemoved name;
      SuccessfullySaved (Py.len (dict_del index_data name))],
     Returns (dict_del index_data name),
     {| files := write_index (files c) (dict_del index_data name);
        path_exists := path_exists c;
        stdin := rest |}).
Proof.
  intros Hin Hc. unfold remove_data.
  destruct index_data as [|entry index_data]; [discriminate Hc|].
  unfold sbind, input. rewrite Hin. rewrite Hc. reflexivity.
Qed.

(** X16. Add Data followed by Remove Data of the same name, a name the
    catalogue did not hold, gives back the catalogue as it was, and the
    store holds it. *)
Theorem add_then_remove_restores
        (index_data : Py.dict (list Z)) (c : console)
        (file_path name : string) (rest : list (result string))
        (data : list (Z * Z * Z)) :
  stdin c = Returns file_path :: Returns name :: Returns name :: rest ->
  resized_pixels (files c) file_path = Returns data -> data <> [] ->
  Py.dict_contains index_data name = false ->
  exists (log : list line) (c' : console),
    sbind (add_data index_data) remove_data c = (log, Returns index_data, c')
    /\ store c' = Some (Returns index_data)
    /\ stdin c' = rest.
Proof.
  intros Hin Hpix Hdata Hfresh.
  unfold sbind.
  rewrite (add_data_run index_data c file_path name _ data Hin Hpix Hdata).
  rewrite (remove_data_run
             (Py.dict_set index_data name (flatten_pixels data))
             {| files := write_index (files c)
                           (Py.dict_set index_data name (flatten_pixels data));
                path_exists := path_exists c;
                stdin := Returns name :: rest |}
             name rest);
    [|reflexivity
     |unfold Py.dict_contains; now rewrite dict_get_set, String.eqb_refl].
  rewrite (dict_del_set_fresh _ index_data name _ Hfresh).
  eexists _, _. repeat split.
Qed.

Lemma add_then_remove_restores_witness :
  exists (log : list line) (c' : console),
    sbind (add_data [("a"%string, [1; 2; 3]%Z)]) remove_data
      {| files := same_stem_env; path_exists := fun _ => true;
         stdin := [Returns "new.png"; Returns "n"; Returns "n"]%string |}
    = (log, Returns [("a"%string, [1; 2; 3]%Z)], c')
    /\ store c' = Some (Returns [("a"%string, [1; 2; 3]%Z)])
    /\ stdin c' = [].
Proof.
  apply (add_then_remove_restores [("a"%string, [1; 2; 3]%Z)]
           {| files := same_stem_env; path_exists := fun _ => true;
              stdin := [Returns "new.png"; Returns "n"; Returns "n"]%string |}
           "new.png" "n" [] [(2, 2, 2)%Z]).
  - reflexivity.
  - reflexivity.
  - discriminate.
  - reflexivity.
Defined.

Lemma run_comparison_logic_returns
      (env : environment) (input_path : string)
      (index_data : Py.dict (list Z)) :
  exists log outcome,
    main.run_comparison_logic env input_path index_data
    = (log, Returns outcome).
Proof.
  destruct (resized_pixels env input_path) as [[|px data]|e] eqn:Hpix.
  - unfold main.run_comparison_logic, get_feature_vector. rewrite Hpix.
    now eexists _, _.
  - destruct (run_comparison_logic_spec env input_path index_data
                (px :: data) Hpix ltac:(discriminate))
      as (scored & _ & Hrun).
    destruct (io_outcome _ _ _ Hrun) as [log Hlog].
    rewrite Hlog. now eexists _, _.
  - pose proof (get_feature_vector_cases env input_path) as Hgfv.
    rewrite Hpix in Hgfv. destruct Hgfv as (o & _ & Hgfv).
    unfold main.run_comparison_logic. rewrite Hgfv. now eexists _, _.
Qed.

(** X17. Cross-Reference Local File only reads: it leaves the files and
    the store as they are.  On an empty catalogue it asks for nothing and
    prints the hint to run a mass update, so the matcher is never run on an
    empty catalogue from here; otherwise it asks for one path, and on a path
    that exists or not it returns normally, printing the file-not-found line
    and no comparison when the path does not exist. *)
Theorem compare_local_file_read_only
        (index_data : Py.dict (list Z)) (c : console) :
  exists (log : list line) (r : result unit) (c' : console),
    compare_local_file index_data c = (log, r, c')
    /\ files c' = files c
    /\ (index_data = [] ->
        log = [IndexEmptyRunMassUpdate] /\ r = Returns tt /\ c' = c)
    /\ (forall input_path rest,
           index_data <> [] -> stdin c = Returns input_path :: rest ->
           r = Returns tt /\ stdin c' = rest
           /\ (path_exists c input_path = false ->
               log = [Prompted AskLocalPath; FileNotFoundAtPath])).
Proof.
  unfold compare_local_file.
  destruct index_data as [|entry index_data].
  - eexists _, _, _. split; [reflexivity|]. split; [reflexivity|].
    split; [now repeat split|]. intros ? ? H. now elim H.
  - unfold sbind, input, os_path_exists.
    destruct (stdin c) as [|[input_path|e] rest] eqn:Hin.
    + eexists _, _, _. split; [reflexivity|]. split; [reflexivity|].
      split; [discriminate|]. intros ? ? _ H. discriminate H.
    + cbn [path_exists files stdin].
      destruct (path_exists c input_path) eqn:Hex; cbn [negb].
      * unfold run. cbn [files].
        destruct (run_comparison_logic_returns (files c) input_path
                    (entry :: index_data)) as (log & o & ->).
        eexists _, _, _. split; [reflexivity|]. split; [reflexivity|].
        split; [discriminate|].
        intros p r _ H. injection H as <- <-.
        split; [reflexivity|]. split; [reflexivity|].
        intros H. congruence.
      * eexists _, _, _. split; [reflexivity|]. split; [reflexivity|].
        split; [discriminate|].
        intros p r _ H. injection H as <- <-. now repeat split.
    + eexists _, _, _. split; [reflexivity|]. split; [reflexivity|].
      split; [discriminate|]. intros ? ? _ H. discriminate H.
Qed.

(** ** Indexing, then matching *)

Lemma dict_get_in (V : Type) (d : Py.dict V) (k : string) (v : V) :
  Py.dict_get d k = Some v -> In (k, v) d.
Proof.
  induction d as [|[k0 v0] d IH]; cbn [Py.dict_get]; [discriminate|].
  destruct (String.eqb_spec k0 k) as [->|_].
  - intros H. injection H as ->. now left.
  - intros H. right. now apply IH.
Qed.

Lemma scored_in (new_vector : list Z) (items : list (string * list Z))
      (results : list main.match_result) (k : string) (v : list Z) :
  Spec.scored new_vector items results -> In (k, v) items ->
  exists m, In m results /\ main.name m = k
            /\ compare_vectors new_vector v RGB_TOLERANCE
               = Returns (main.confidence m).
Proof.
  unfold Spec.scored. induction 1 as [|item m items results [Hn Hc] _ IH].
  - intros [].
  - intros [->|Hin].
    + exists m. split; [now left | now split].
    + destruct (IH Hin) as (m' & Hm' & H). exists m'.
      split; [now right | exact H].
Qed.

Lemma scored_bounds (new_vector : list Z) (items : list (string * list Z))
      (results : list main.match_result) :
  Spec.scored new_vector items results ->
  Forall (fun m => (main.confidence m <= Py.float_of_Z 100)%Qc) results.
Proof.
  unfold Spec.scored. induction 1 as [|item m items results [_ Hc] _ IH].
  - constructor.
  - constructor; [|exact IH].
    now destruct (compare_vectors_bounds _ _ _ _ Hc).
Qed.

Lemma last_indexed_nonempty (env : environment) (listing : list string)
      (k : string) (v : list Z) :
  Spec.last_indexed env listing k = Some v -> v <> [].
Proof.
  induction listing as [|f rest IH]; cbn [Spec.last_indexed];
    [discriminate|].
  destruct (Spec.last_indexed env rest k) as [v0|].
  - intros H. injection H as <-. now apply IH.
  - destruct (String.eqb (Spec.display_name f) k); [|discriminate].
    unfold Spec.indexed_vector.
    destruct (Spec.recognized f); [|discriminate].
    destruct (resized_pixels env _) as [data|e]; [|discriminate].
    destruct (flatten_pixels data); [discriminate|].
    intros H. injection H as <-. discriminate.
Qed.

(** X18. What the scan has catalogued is found again.  If the fingerprint
    that the scan leaves under a key is that of the query image, then the
    matcher, run on the catalogue of the scan, ranks that key with
    confidence 100.0, and the best match has confidence 100.0. *)
Theorem indexed_image_matches_itself
        (env : environment) (listing : list string)
        (index_data : Py.dict (list Z)) (k input_path : string)
        (data : list (Z * Z * Z)) :
  image_dir env = Some listing ->
  resized_pixels env input_path = Returns data ->
  Spec.last_indexed env listing k = Some (flatten_pixels data) ->
  exists (log log' : list output) (n : nat) (index_data' : Py.dict (list Z))
         (ranking : list main.match_result) (best : main.match_result),
    index_all_images env index_data = (log, Returns (n, index_data'))
    /\ main.run_comparison_logic env input_path index_data'
       = (log', Returns (Some {| main.match_results := ranking;
                                 main.best_match := best |}))
    /\ In {| main.name := k; main.confidence := Py.float_of_Z 100 |} ranking
    /\ main.confidence best = Py.float_of_Z 100.
Proof.
  intros Hdir Hpix Hlast.
  pose proof (last_indexed_nonempty env listing k _ Hlast) as Hv.
  assert (Hdata : data <> []) by (intros ->; now apply Hv).
  rewrite (index_all_images_run env listing index_data Hdir).
  destruct (index_loop_spec env listing index_data 0)
    as (log & d' & Hrun & Hget & _).
  rewrite Hrun. cbn [fst snd].
  destruct (run_comparison_logic_spec env input_path d' data Hpix Hdata)
    as (scored & Hscored & Hcmp).
  destruct (io_outcome _ _ _ Hcmp) as [log' Hlog'].
  specialize (Hget k). rewrite Hlast in Hget.
  destruct (scored_in _ _ _ k _ Hscored (dict_get_in _ d' k _ Hget))
    as (m & Hm & Hname & Hconf).
  assert (H100 : main.confidence m = Py.float_of_Z 100).
  { pose proof (flatten_pixels_length data) as Hlen.
    assert (HN : 0 < List.length data)
      by (destruct data; [now elim Hdata | cbn; lia]).
    rewrite (compare_vectors_fingerprints _ _ RGB_TOLERANCE _ HN Hlen Hlen)
      in Hconf.
    apply Returns_inj in Hconf. rewrite <- Hconf.
    unfold Spec.mismatched_pixel_count.
    rewrite mismatched_between_self by (unfold RGB_TOLERANCE; lia).
    change (Py.float_of_nat 0) with 0%Qc.
    field. now apply float_of_nat_nonzero. }
  pose proof (sort_reverse_perm _ main.confidence scored) as Hperm.
  pose proof (sort_reverse_sorted _ main.confidence scored) as Hsorted.
  pose proof (scored_bounds _ _ _ Hscored) as Hbounds.
  apply (Permutation_Forall Hperm) in Hbounds.
  apply (Permutation_in _ Hperm) in Hm.
  assert (Hentry : m = {| main.name := k;
                          main.confidence := Py.float_of_Z 100 |}).
  { destruct m as [mn mc]. cbn in Hname, H100. now subst. }
  exists (StartingIndexing :: log), log', (0 + Spec.indexed_count env listing),
    d'.
  eexists _, _. split; [reflexivity|]. split; [exact Hlog'|].
  split; [now rewrite <- Hentry|].
  destruct (Py.sort_reverse main.confidence scored) as [|first rest];
    [now elim Hm|].
  apply Qcle_antisym.
  - now inversion Hbounds.
  - rewrite <- H100. destruct Hm as [->|Hm]; [apply Qcle_refl|].
    inversion Hsorted as [|? ? _ Hrest]; subst.
    rewrite Forall_forall in Hrest. now apply Hrest.
Qed.

Lemma indexed_image_matches_itself_witness :
  exists (log log' : list output) (n : nat) (index_data' : Py.dict (list Z))
         (ranking : list main.match_result) (best : main.match_result),
    index_all_images three_files_env [("old"%string, [7; 7; 7]%Z)]
    = (log, Returns (n, index_data'))
    /\ main.run_comparison_logic three_files_env "images/3.png" index_data'
       = (log', Returns (Some {| main.match_results := ranking;
                                 main.best_match := best |}))
    /\ In {| main.name := "3"; main.confidence := Py.float_of_Z 100 |} ranking
    /\ main.confidence best = Py.float_of_Z 100.
Proof.
  apply (indexed_image_matches_itself three_files_env
           ["1.png"; "2.png"; "3.png"]%string [("old"%string, [7; 7; 7]%Z)]
           "3" "images/3.png" [(10, 20, 30)%Z; (40, 50, 60)%Z]).
  - reflexivity.
  - reflexivity.
  - reflexivity.
Defined.
